(** * A shallow embedding of [joy.py] (JobMatchBot, class [JobSearchBot])

    The bot keeps a dictionary [self.users] from the decimal string of a
    Telegram chat id to a user record, saves it to [users_data.json],
    scrapes job postings from LinkedIn and Indeed, scores them and sends
    the matching ones through Telegram.

    Modelling conventions.
    - Python [str] values are Rocq [string]s.  User input is taken to be
      ASCII, so that [len] of a Python string is [String.length].
    - Python exceptions are the constructors of [exn]; code that can raise
      returns an [exc A] (a value or a raised exception).
    - Network access (Telegram, LinkedIn, Indeed), PDF extraction and the
      per-process string hash are parameters: the model is quantified over
      every answer they can give.
    - Side effects visible outside the process (messages sent, requests
      made, sleeps, threads started, file writes) are recorded as a list of
      [event]s, in program order. *)

From Stdlib Require Import String Ascii ZArith List Lia.
From stdpp Require Import base gmap strings pretty list.

Open Scope string_scope.
Open Scope Z_scope.

(* ------------------------------------------------------------------ *)
(** ** Python exceptions *)

Inductive exn :=
| TypeError            (* e.g. subscripting [None] *)
| ValueError           (* [int("abc")] *)
| IndexError           (* [keywords[0]] on an empty list *)
| KeyError             (* missing dictionary key / tag attribute *)
| AttributeError       (* [.text] on the [None] of a failed [select_one] *)
| NameError            (* an undefined name *)
| RequestException.    (* transport failure of [requests] *)

Inductive exc (A : Type) :=
| Ret (a : A)
| Raise (e : exn).
Arguments Ret {A} a.
Arguments Raise {A} e.

Definition exc_bind {A B} (m : exc A) (k : A -> exc B) : exc B :=
  match m with Ret a => k a | Raise e => Raise e end.

Notation "x <- m ;; k" := (exc_bind m (fun x => k))
  (at level 100, m at next level, right associativity).

(** [try: body except Exception: handler] *)
Definition try_except {A} (m : exc A) (handler : exn -> exc A) : exc A :=
  match m with Ret a => Ret a | Raise e => handler e end.

Definition of_option {A} (e : exn) (o : option A) : exc A :=
  match o with Some a => Ret a | None => Raise e end.

(* ------------------------------------------------------------------ *)
(** ** The Python [str] methods the bot uses *)

Module PyStr.

(** [str.isspace] on ASCII: space, \t \n \v \f \r and \x1c..\x1f. *)
Definition is_space (c : ascii) : bool :=
  let n := nat_of_ascii c in
  (Nat.eqb n 32 || ((9 <=? n)%nat && (n <=? 13)%nat)
   || ((28 <=? n)%nat && (n <=? 31)%nat))%bool.

Definition is_digit (c : ascii) : bool :=
  let n := nat_of_ascii c in ((48 <=? n)%nat && (n <=? 57)%nat)%bool.

Definition digit_value (c : ascii) : Z := Z.of_nat (nat_of_ascii c) - 48.

Fixpoint lstrip (s : string) : string :=
  match s with
  | EmptyString => EmptyString
  | String c r => if is_space c then lstrip r else s
  end.

Fixpoint rev_str (s : string) : string :=
  match s with
  | EmptyString => EmptyString
  | String c r => rev_str r +:+ String c EmptyString
  end.

Definition rstrip (s : string) : string := rev_str (lstrip (rev_str s)).

(** [s.strip()] *)
Definition strip (s : string) : string := rstrip (lstrip s).

(** [s.startswith(p)] *)
Definition startswith (s p : string) : bool := String.prefix p s.

(** [s.replace(old, new)] for a non-empty [old]: every non-overlapping
    occurrence, scanning from the left.  [fuel] is [length s]. *)
Fixpoint replace_go (fuel : nat) (s old new : string) : string :=
  match fuel with
  | O => s
  | S fuel' =>
      match s with
      | EmptyString => EmptyString
      | String c r =>
          if String.prefix old s
          then new +:+ replace_go fuel' (substring (String.length old)
                                           (String.length s) s) old new
          else String c (replace_go fuel' r old new)
      end
  end.

Definition replace (s old new : string) : string :=
  replace_go (String.length s) s old new.

(** [s.split(sep)] for a one-character separator. *)
Fixpoint split_char (sep : ascii) (s : string) : list string :=
  match s with
  | EmptyString => [EmptyString]
  | String c r =>
      match split_char sep r with
      | [] => [] (* not reached *)
      | w :: ws => if Ascii.eqb c sep then EmptyString :: w :: ws
                   else String c w :: ws
      end
  end.

(** [s.split()]: split on runs of whitespace, dropping empty words. *)
Fixpoint split_ws_go (s : string) (cur : string) : list string :=
  match s with
  | EmptyString => if String.eqb cur "" then [] else [rev_str cur]
  | String c r =>
      if is_space c
      then (if String.eqb cur "" then [] else [rev_str cur]) ++ split_ws_go r ""
      else split_ws_go r (String c cur)
  end.

Definition split_ws (s : string) : list string := split_ws_go s "".

(** [sep.join(l)] *)
Fixpoint join (sep : string) (l : list string) : string :=
  match l with
  | [] => ""
  | [w] => w
  | w :: ws => w +:+ sep +:+ join sep ws
  end.

(** [sub in s] *)
Fixpoint contains (s sub : string) : bool :=
  (String.prefix sub s ||
   match s with EmptyString => false | String _ r => contains r sub end)%bool.

(** Decimal digits with single underscores between them, as accepted by
    [int()]; [acc] is the value read so far. *)
Fixpoint digits_go (s : string) (acc : Z) : option Z :=
  match s with
  | EmptyString => Some acc
  | String c r =>
      if is_digit c then digits_go r (acc * 10 + digit_value c)
      else if Ascii.eqb c "_" then
        match r with
        | String c' r' =>
            if is_digit c' then digits_go r' (acc * 10 + digit_value c')
            else None
        | EmptyString => None
        end
      else None
  end.

Definition digits (s : string) : option Z :=
  match s with
  | String c r => if is_digit c then digits_go r (digit_value c) else None
  | EmptyString => None
  end.

(** [int(s)]: surrounding whitespace, an optional sign, then digits;
    anything else raises [ValueError]. *)
Definition py_int (s : string) : exc Z :=
  let t := strip s in
  of_option ValueError
    match t with
    | String c r =>
        if Ascii.eqb c "-" then option_map Z.opp (digits r)
        else if Ascii.eqb c "+" then digits r
        else digits t
    | EmptyString => None
    end.

(** [str(n)] for a Python [int]. *)
Definition py_str (n : Z) : string := pretty n.

End PyStr.

Import PyStr.

(* ------------------------------------------------------------------ *)
(** ** Data model *)

(** A scraped posting: the dictionary built in [scrape_jobs]. *)
Record Job := mkJob {
  job_source : string;
  job_title : string;
  job_company : string;
  job_location : string;
  job_link : string;
  job_id : string
}.

(** The dictionary [{"score": ..., "analysis": ...}] of a scoring. *)
Record MatchResult := mkMatchResult {
  score : Z;
  analysis : string
}.

(** [self.users[chat_id_str]] *)
Record UserData := mkUserData {
  resume : string;
  search_keywords : list string;
  search_location : string;
  min_match_score : Z;
  jobs_sent : list string;
  notification_time : string;
  is_active : bool;
  last_activity : string;
  welcomed : bool
}.

(** The [JobSearchBot] object: [self.users], the content of
    [users_data.json] as last written by [save_users], and
    [self.last_update_id]. *)
Record BotState := mkBotState {
  users : gmap string UserData;
  users_db : gmap string UserData;
  last_update_id : option Z
}.

(** Targets of [threading.Thread(target=...)]. *)
Inductive thread_target := SendJobsToUser | SendResumeAnalysis.

(** What the bot does, in program order.  [ESend] is [send_message];
    [EMatchSent] is the [send_message] of the match notification built by
    [match_message]; [ERecordSent] and [EScoreCall] mark the append to
    [jobs_sent] and the call of [get_match_score] in [send_jobs_to_user];
    [ESetOffset] marks the assignment of [self.last_update_id]. *)
Inductive event :=
| ESend (chat_id : Z) (text : string) (parse_mode : option string)
| EMatchSent (chat_id : Z) (job : Job) (score : Z) (analysis : string)
| EHttpGet (url : string)
| EGetUpdates (offset : option Z)
| ESleep (seconds : Z)
| ESleepRandom                        (* time.sleep(random.uniform(1, 3)) *)
| ESpawn (target : thread_target) (chat_id : Z)
| ESave
| ERecordSent (id : string)
| EScoreCall (id : string)
| ESetOffset (update_id : Z).

(* ------------------------------------------------------------------ *)
(** ** The bot's effects: state, exceptions and the event trace *)

Record World := mkWorld { st : BotState; trace : list event }.

Definition Py (A : Type) := World -> World * exc A.

Definition py_ret {A} (a : A) : Py A := fun w => (w, Ret a).
Definition py_raise {A} (e : exn) : Py A := fun w => (w, Raise e).
Definition py_bind {A B} (m : Py A) (k : A -> Py B) : Py B :=
  fun w => match m w with
           | (w', Ret a) => k a w'
           | (w', Raise e) => (w', Raise e)
           end.

Notation "x <-- m ;; k" := (py_bind m (fun x => k))
  (at level 100, m at next level, right associativity).
Notation "m ;;; k" := (py_bind m (fun _ => k))
  (at level 100, right associativity).

(** Effects already performed stay performed when an exception is caught. *)
Definition py_try {A} (m : Py A) (handler : exn -> Py A) : Py A :=
  fun w => match m w with
           | (w', Ret a) => (w', Ret a)
           | (w', Raise e) => handler e w'
           end.

Definition py_lift {A} (m : exc A) : Py A := fun w => (w, m).

Definition emit (e : event) : Py unit :=
  fun w => (mkWorld (st w) (trace w ++ [e]), Ret tt).

Definition get_users : Py (gmap string UserData) :=
  fun w => (w, Ret (users (st w))).

Definition put_users (u : gmap string UserData) : Py unit :=
  fun w => (mkWorld (mkBotState u (users_db (st w)) (last_update_id (st w)))
                    (trace w), Ret tt).

Definition get_last_update_id : Py (option Z) :=
  fun w => (w, Ret (last_update_id (st w))).

Definition put_last_update_id (o : option Z) : Py unit :=
  fun w => (mkWorld (mkBotState (users (st w)) (users_db (st w)) o)
                    (trace w), Ret tt).

Definition for_each {A} (f : A -> Py unit) : list A -> Py unit :=
  fix go l := match l with
              | [] => py_ret tt
              | x :: xs => f x ;;; go xs
              end.

(** [self.users[k]] read, raising [KeyError] when absent. *)
Definition user_lookup (k : string) : Py UserData :=
  u <-- get_users ;; py_lift (of_option KeyError (u !! k)).

(** [self.users[k] = ...]-style update of one record. *)
Definition user_update (k : string) (f : UserData -> UserData) : Py unit :=
  u <-- get_users ;;
  match u !! k with
  | Some d => put_users (<[k := f d]> u)
  | None => py_raise KeyError
  end.

Definition set_resume_field (r : string) (d : UserData) : UserData :=
  mkUserData r (search_keywords d) (search_location d) (min_match_score d)
    (jobs_sent d) (notification_time d) (is_active d) (last_activity d) (welcomed d).
Definition set_keywords_field (k : list string) (d : UserData) : UserData :=
  mkUserData (resume d) k (search_location d) (min_match_score d)
    (jobs_sent d) (notification_time d) (is_active d) (last_activity d) (welcomed d).
Definition set_location_field (l : string) (d : UserData) : UserData :=
  mkUserData (resume d) (search_keywords d) l (min_match_score d)
    (jobs_sent d) (notification_time d) (is_active d) (last_activity d) (welcomed d).
Definition set_min_score_field (n : Z) (d : UserData) : UserData :=
  mkUserData (resume d) (search_keywords d) (search_location d) n
    (jobs_sent d) (notification_time d) (is_active d) (last_activity d) (welcomed d).
Definition set_jobs_sent_field (l : list string) (d : UserData) : UserData :=
  mkUserData (resume d) (search_keywords d) (search_location d) (min_match_score d)
    l (notification_time d) (is_active d) (last_activity d) (welcomed d).
Definition set_time_field (t : string) (d : UserData) : UserData :=
  mkUserData (resume d) (search_keywords d) (search_location d) (min_match_score d)
    (jobs_sent d) t (is_active d) (last_activity d) (welcomed d).
Definition set_active_field (b : bool) (d : UserData) : UserData :=
  mkUserData (resume d) (search_keywords d) (search_location d) (min_match_score d)
    (jobs_sent d) (notification_time d) b (last_activity d) (welcomed d).
Definition set_activity_field (a : string) (d : UserData) : UserData :=
  mkUserData (resume d) (search_keywords d) (search_location d) (min_match_score d)
    (jobs_sent d) (notification_time d) (is_active d) a (welcomed d).

(* ------------------------------------------------------------------ *)
(** ** The bot *)

Section Bot.

(** [datetime.now().isoformat()] *)
Variable now : string.

(** [save_users]: [json.dump(self.users, f)] overwrites the file. *)
Definition save_users : Py unit :=
  emit ESave ;;;
  fun w => (mkWorld (mkBotState (users (st w)) (users (st w)) (last_update_id (st w)))
                    (trace w), Ret tt).

(** [send_message]: failures are logged, never raised. *)
Definition send_message (chat_id : Z) (text : string) (parse_mode : option string)
  : Py unit := emit (ESend chat_id text parse_mode).

Definition new_user_record : UserData :=
  mkUserData "" ["AI Engineer"] "India" 70 [] "09:00" true now true.

Definition register_user (chat_id : Z) : Py bool :=
  let chat_id_str := py_str chat_id in
  u <-- get_users ;;
  match u !! chat_id_str with
  | None => put_users (<[chat_id_str := new_user_record]> u) ;;;
            save_users ;;; py_ret true
  | Some _ => py_ret false
  end.

Definition set_resume (chat_id : Z) (resume_text : string) : Py bool :=
  let chat_id_str := py_str chat_id in
  u <-- get_users ;;
  match u !! chat_id_str with
  | Some _ => user_update chat_id_str (set_resume_field resume_text) ;;;
              user_update chat_id_str (set_activity_field now) ;;;
              save_users ;;; py_ret true
  | None => py_ret false
  end.

Definition when_some {A} (o : option A) (f : A -> Py unit) : Py unit :=
  match o with Some a => f a | None => py_ret tt end.

Definition set_search_preferences (chat_id : Z) (keywords : option (list string))
    (location : option string) (min_score : option Z)
    (notification_time : option string) : Py bool :=
  let chat_id_str := py_str chat_id in
  u <-- get_users ;;
  match u !! chat_id_str with
  | Some _ =>
      when_some keywords (fun k => user_update chat_id_str (set_keywords_field k)) ;;;
      when_some location (fun l => user_update chat_id_str (set_location_field l)) ;;;
      when_some min_score (fun n => user_update chat_id_str (set_min_score_field n)) ;;;
      when_some notification_time
        (fun t => user_update chat_id_str (set_time_field t)) ;;;
      user_update chat_id_str (set_activity_field now) ;;;
      save_users ;;; py_ret true
  | None => py_ret false
  end.

(** The newline character [\n]. *)
Definition nl : string := String (ascii_of_nat 10) EmptyString.

Definition ask_for_preferences (chat_id : Z) : Py unit :=
  send_message chat_id
    ("🔍 Let's customize your job search!" +:+ nl +:+ nl +:+
     "Please send your preferences in this format:" +:+ nl +:+
     "/preferences [job titles] | [location] | [minimum match %] | [notification time]"
     +:+ nl +:+ nl +:+
     "Example: /preferences Data Scientist, ML Engineer | New York | 75 | 08:00"
     +:+ nl +:+ nl +:+
     "Or you can set them individually:" +:+ nl +:+
     "/keywords Data Scientist, ML Engineer" +:+ nl +:+
     "/location New York" +:+ nl +:+
     "/score 75" +:+ nl +:+
     "/time 08:00") None.

Definition ask_for_resume (chat_id : Z) : Py unit :=
  send_message chat_id
    "🚀 Please send your resume (as a PDF) so I can match jobs for you!" None.

Definition welcome_msg : string :=
  "👋 Welcome to JobMatchBot!" +:+ nl +:+ nl +:+
  "I'll help you find jobs that match your profile. To get started:" +:+ nl +:+
  "1️⃣ Send me your resume as a PDF file" +:+ nl +:+
  "2️⃣ I'll ask you for job search preferences" +:+ nl +:+
  "3️⃣ I'll send you daily job matches with AI-powered match scores" +:+ nl +:+ nl +:+
  "Type /help anytime to see available commands.".

Definition help_msg : string :=
  "🤖 *JobMatchBot Commands* 🤖" +:+ nl +:+ nl +:+
  "/start - Start or restart the bot" +:+ nl +:+
  "/preferences - Set all preferences at once" +:+ nl +:+
  "/keywords [job titles] - Set job search keywords" +:+ nl +:+
  "/location [place] - Set job search location" +:+ nl +:+
  "/score [number] - Set minimum match score" +:+ nl +:+
  "/time [HH:MM] - Set daily notification time" +:+ nl +:+
  "/jobs - Get jobs immediately" +:+ nl +:+
  "/analyze - Get resume analysis and improvement suggestions" +:+ nl +:+
  "/pause - Pause daily notifications" +:+ nl +:+
  "/resume - Resume daily notifications" +:+ nl +:+
  "/status - Check your current settings".

Definition invalid_preferences_msg : string :=
  "❌ Invalid format. Please use: /preferences [keywords] | [location] | [score] | [time]".

Definition time_format_msg : string := "❌ Please enter time in HH:MM format.".

(** [parts[i]] of a Python list; out of range raises [IndexError]. *)
Definition py_index {A} (l : list A) (i : nat) : exc A :=
  of_option IndexError (l !! i).

(** The [/preferences] branch of [parse_command] ([text] is stripped). *)
Definition preferences_command (text : string) (chat_id : Z) : Py unit :=
  py_try
    (let parts := split_char "|" (strip (replace text "/preferences" "")) in
     if (4 <=? length parts)%nat then
       p0 <-- py_lift (py_index parts 0) ;;
       let keywords := map strip (split_char "," p0) in
       p1 <-- py_lift (py_index parts 1) ;;
       let location := strip p1 in
       p2 <-- py_lift (py_index parts 2) ;;
       min_score <-- py_lift (py_int (strip p2)) ;;
       p3 <-- py_lift (py_index parts 3) ;;
       let notif_time := strip p3 in
       set_search_preferences chat_id (Some keywords) (Some location)
         (Some min_score) (Some notif_time) ;;;
       send_message chat_id "✅ Your job search preferences have been updated!" None
     else ask_for_preferences chat_id)
    (fun _ => send_message chat_id invalid_preferences_msg None).

(** The [/keywords] branch. *)
Definition keywords_command (text : string) (chat_id : Z) : Py unit :=
  let keywords := map strip (split_char "," (strip (replace text "/keywords" ""))) in
  match keywords with
  | k0 :: _ =>
      if negb (String.eqb k0 "") then
        set_search_preferences chat_id (Some keywords) None None None ;;;
        send_message chat_id
          ("✅ Job search keywords updated to: " +:+ join ", " keywords) None
      else send_message chat_id "❌ Please provide at least one keyword." None
  | [] => send_message chat_id "❌ Please provide at least one keyword." None
  end.

(** The [/location] branch. *)
Definition location_command (text : string) (chat_id : Z) : Py unit :=
  let location := strip (replace text "/location" "") in
  if negb (String.eqb location "") then
    set_search_preferences chat_id None (Some location) None None ;;;
    send_message chat_id ("✅ Job search location updated to: " +:+ location) None
  else send_message chat_id "❌ Please provide a location." None.

(** The [/score] branch. *)
Definition score_command (text : string) (chat_id : Z) : Py unit :=
  py_try
    (score <-- py_lift (py_int (strip (replace text "/score" ""))) ;;
     if (0 <=? score) && (score <=? 100) then
       set_search_preferences chat_id None None (Some score) None ;;;
       send_message chat_id
         ("✅ Minimum match score updated to: " +:+ py_str score +:+ "%") None
     else send_message chat_id "❌ Score must be between 0 and 100." None)
    (fun _ => send_message chat_id "❌ Please enter a valid number." None).

(** The [/time] branch: [time_str and len(time_str) == 5 and ":" in time_str]. *)
Definition time_command (text : string) (chat_id : Z) : Py unit :=
  let time_str := strip (replace text "/time" "") in
  if negb (String.eqb time_str "") && Nat.eqb (String.length time_str) 5
     && contains time_str ":"
  then set_search_preferences chat_id None None None (Some time_str) ;;;
       send_message chat_id
         ("✅ Daily notification time updated to: " +:+ time_str) None
  else send_message chat_id time_format_msg None.

Definition set_active (chat_id : Z) (b : bool) (reply : string) : Py unit :=
  let chat_id_str := py_str chat_id in
  u <-- get_users ;;
  match u !! chat_id_str with
  | Some _ => user_update chat_id_str (set_active_field b) ;;; save_users ;;;
              send_message chat_id reply None
  | None => py_ret tt
  end.

Definition parse_command (text0 : string) (chat_id : Z) (skip_welcome : bool)
  : Py unit :=
  let text := strip text0 in
  if startswith text "/start" then
    is_new_user <-- register_user chat_id ;;
    if negb skip_welcome && (is_new_user || String.eqb text "/start")
    then send_message chat_id welcome_msg None ;;; ask_for_resume chat_id
    else py_ret tt
  else if startswith text "/help" then
    send_message chat_id help_msg (Some "Markdown")
  else if startswith text "/preferences" then preferences_command text chat_id
  else if startswith text "/keywords" then keywords_command text chat_id
  else if startswith text "/location" then location_command text chat_id
  else if startswith text "/score" then score_command text chat_id
  else if startswith text "/time" then time_command text chat_id
  else if startswith text "/jobs" then
    send_message chat_id
      "🔍 Searching for jobs matching your profile... This may take a minute." None ;;;
    emit (ESpawn SendJobsToUser chat_id)
  else if startswith text "/analyze" then
    send_message chat_id "📋 Analyzing your resume... This may take a minute." None ;;;
    emit (ESpawn SendResumeAnalysis chat_id)
  else if startswith text "/pause" then
    set_active chat_id false "⏸️ Job notifications paused. Type /resume to restart."
  else if startswith text "/resume" then
    set_active chat_id true "▶️ Job notifications resumed!"
  else (* [/extract] only evaluates [self.send_message]; other text is ignored *)
    py_ret tt.

(** *** Scraping *)

(** An element matched by [soup.select(...)]: [card_text sel] is
    [select_one(sel).text] ([None] when [select_one] finds nothing, so that
    [.text] raises) and [card_href sel] is [select_one(sel)['href']]. *)
Record html_card := mkCard {
  card_text : string -> option string;
  card_href : string -> option string
}.

(** A [requests] response: its status and the parsed page's [select]. *)
Record http_response := mkResponse {
  status_code : Z;
  select : string -> list html_card
}.

(** [requests.get(url, headers=headers)] *)
Variable http_get : string -> exc http_response.

(** The built-in [hash] on [str] of this process.  CPython salts it with
    a per-process random secret unless [PYTHONHASHSEED] is fixed. *)
Variable str_hash : string -> Z.

(** ['+'.join(keywords[0].replace(',', ' ').split())] *)
Definition keywords_str (keywords : list string) : exc string :=
  k0 <- py_index keywords 0 ;;
  Ret (join "+" (split_ws (replace k0 "," " "))).

(** The body of the [try] inside the LinkedIn [for] loop. *)
Definition linkedin_job (job : html_card) : exc Job :=
  title <- of_option AttributeError (card_text job "h3") ;;
  company <- of_option AttributeError (card_text job "h4") ;;
  loc <- of_option AttributeError (card_text job ".job-search-card__location") ;;
  href <- of_option KeyError (card_href job "a") ;;
  Ret (mkJob "LinkedIn" (strip title) (strip company) (strip loc) href
         ("li_" +:+ py_str (str_hash href))).

(** The body of the [try] inside the Indeed [for] loop. *)
Definition indeed_job (job : html_card) : exc Job :=
  href <- of_option KeyError (card_href job "h2 a") ;;
  let job_id := "indeed_" +:+ py_str (str_hash href) in
  title <- of_option AttributeError (card_text job "h2 a") ;;
  company <- of_option AttributeError (card_text job ".companyName") ;;
  loc <- of_option AttributeError (card_text job ".companyLocation") ;;
  Ret (mkJob "Indeed" (strip title) (strip company) (strip loc)
         ("https://in.indeed.com" +:+ href) job_id).

(** [for job in cards: try: job_list.append(parse(job)) except: log] *)
Fixpoint append_parsed (parse : html_card -> exc Job) (cards : list html_card)
    (job_list : list Job) : list Job :=
  match cards with
  | [] => job_list
  | c :: cs =>
      match parse c with
      | Ret j => append_parsed parse cs (job_list ++ [j])%list
      | Raise _ => append_parsed parse cs job_list
      end
  end.

(** One source's [try] block.  Every point that can raise comes before the
    first append, so the [except] branch sees [job_list] as it was. *)
Definition source_block (url_of : string -> string) (selector : string)
    (parse : html_card -> exc Job) (keywords : list string)
    (job_list : list Job) : Py (list Job) :=
  py_try
    (kw <-- py_lift (keywords_str keywords) ;;
     let url := url_of kw in
     emit (EHttpGet url) ;;;
     response <-- py_lift (http_get url) ;;
     if status_code response =? 200
     then py_ret (append_parsed parse (firstn 10 (select response selector)) job_list)
     else py_ret job_list)
    (fun _ => py_ret job_list).

Definition linkedin_url (location : string) (kw : string) : string :=
  "https://www.linkedin.com/jobs/search/?keywords=" +:+ kw +:+ "&location=" +:+ location.

Definition indeed_url (location : string) (kw : string) : string :=
  "https://in.indeed.com/jobs?q=" +:+ kw +:+ "&l=" +:+ replace location " " "+".

Definition scrape_jobs (keywords : list string) (location : string) : Py (list Job) :=
  let job_list := [] in
  emit ESleepRandom ;;;
  job_list <-- source_block (linkedin_url location) ".base-card" linkedin_job
                 keywords job_list ;;
  job_list <-- source_block (indeed_url location) ".job_seen_beacon" indeed_job
                 keywords job_list ;;
  py_ret job_list.

(** *** Scoring and delivery *)

(** The prompt built by [get_match_score] ([resume_text[:2000]]). *)
Definition match_prompt (job_data : Job) (resume_text : string) : string :=
  "Resume:" +:+ nl +:+ substring 0 2000 resume_text +:+ "..." +:+ nl +:+
  "Job Details:" +:+ nl +:+
  "Title: " +:+ job_title job_data +:+ nl +:+
  "Company: " +:+ job_company job_data +:+ nl +:+
  "Location: " +:+ job_location job_data +:+ nl +:+
  "Task: Evaluate how well this candidate's profile matches the job." +:+ nl +:+
  "Format your response as:" +:+ nl +:+ "Score: [number]".

(** [get_match_score]: the body only assigns [prompt] and falls off its
    end, so the call returns [None].  (The oracle call and the parsing of
    its [Score:] line sit after the [return]-less end of
    [send_resume_analysis] instead.) *)
Definition get_match_score (job_data : Job) (resume_text : string)
  : option MatchResult :=
  let _prompt := match_prompt job_data resume_text in None.

Definition no_new_jobs_msg : string :=
  "🔍 No new job matches found today. I'll keep searching!".

(** [l[-n:]] *)
Definition py_last (n : nat) {A} (l : list A) : list A := drop (length l - n) l.

(** [jobs_sent.append(id)] then [if len > 100: jobs_sent = jobs_sent[-100:]] *)
Definition record_sent (l : list string) (id : string) : list string :=
  let l' := (l ++ [id])%list in
  if (100 <? length l')%nat then py_last 100 l' else l'.

(** The formatted match notification. *)
Definition match_message (job : Job) (score : Z) (analysis : string) : string :=
  "🚀 *New Job Match!*" +:+ nl +:+ nl +:+
  "📌 *" +:+ job_title job +:+ "*" +:+ nl +:+
  "🏢 " +:+ job_company job +:+ nl +:+
  "📍 " +:+ job_location job +:+ nl +:+
  "🌐 Source: " +:+ job_source job +:+ nl +:+
  "📊 *AI Match Score:* " +:+ py_str score +:+ "%" +:+ nl +:+ nl +:+
  "*Analysis:*" +:+ nl +:+ analysis +:+ nl +:+ nl +:+
  "🔗 [Apply Here](" +:+ job_link job +:+ ")".

Section Delivery.

(** The method called as [self.get_match_score]; the program's own is
    [get_match_score], other scorers are used to study the loop. *)
Variable scorer : Job -> string -> option MatchResult.

(** The [for job in new_jobs] loop; [user_data] aliases
    [self.users[chat_id_str]], so its updates go to the store. *)
Fixpoint deliver_loop (chat_id : Z) (chat_id_str : string) (new_jobs : list Job)
    (matches_found : Z) : Py Z :=
  match new_jobs with
  | [] => py_ret matches_found
  | job :: rest =>
      user_update chat_id_str
        (fun d => set_jobs_sent_field (record_sent (jobs_sent d) (job_id job)) d) ;;;
      emit (ERecordSent (job_id job)) ;;;
      user_data <-- user_lookup chat_id_str ;;
      emit (EScoreCall (job_id job)) ;;;
      match scorer job (resume user_data) with
      | None => py_raise TypeError      (* None["score"] *)
      | Some match_result =>
          if min_match_score user_data <=? score match_result then
            emit (EMatchSent chat_id job (score match_result) (analysis match_result)) ;;;
            emit (ESleep 1) ;;;
            deliver_loop chat_id chat_id_str rest (matches_found + 1)
          else deliver_loop chat_id chat_id_str rest matches_found
      end
  end.

Definition is_new_job (sent : list string) (job : Job) : bool :=
  negb (existsb (String.eqb (job_id job)) sent).

Definition send_jobs_to_user_with (chat_id : Z) : Py unit :=
  let chat_id_str := py_str chat_id in
  u <-- get_users ;;
  match u !! chat_id_str with
  | None => py_ret tt
  | Some user_data =>
    if negb (is_active user_data) then py_ret tt
    else if String.eqb (resume user_data) "" then ask_for_resume chat_id
    else
      jobs <-- scrape_jobs (search_keywords user_data) (search_location user_data) ;;
      match jobs with
      | [] => send_message chat_id no_new_jobs_msg None
      | _ :: _ =>
        user_data <-- user_lookup chat_id_str ;;
        let new_jobs := List.filter (is_new_job (jobs_sent user_data)) jobs in
        match new_jobs with
        | [] => send_message chat_id no_new_jobs_msg None
        | _ :: _ =>
          matches_found <-- deliver_loop chat_id chat_id_str new_jobs 0 ;;
          user_data <-- user_lookup chat_id_str ;;
          (if matches_found =? 0 then
             send_message chat_id
               ("🔍 I found " +:+ py_str (Z.of_nat (length new_jobs)) +:+
                " new jobs, but none met your minimum match score of " +:+
                py_str (min_match_score user_data) +:+ "%. I'll keep searching!") None
           else
             send_message chat_id
               ("✅ Sent you " +:+ py_str matches_found +:+
                " job matches today! I'll send more when I find them.") None) ;;;
          save_users
        end
      end
  end.

End Delivery.

(** [send_jobs_to_user] as written: it calls the program's [get_match_score]. *)
Definition send_jobs_to_user (chat_id : Z) : Py unit :=
  send_jobs_to_user_with get_match_score chat_id.

(** *** Inbound messages *)

(** [TELEGRAM_URL] and the file URL prefix (from [BOT_TOKEN]). *)
Variable bot_token : string.

(** [requests.get(.../getFile?file_id=...).json()]: [Some path] when the
    answer has a ["result"] (with its ["file_path"]). *)
Variable get_file_info : string -> exc (option string).

(** [requests.get(file_url)]: status code and content. *)
Variable download : string -> exc (Z * string).

(** The text PyMuPDF extracts from the saved file, [None] if it raises. *)
Variable pdf_text : string -> option string.

Definition extract_text_from_pdf (content : string) : string :=
  match pdf_text content with
  | None => "❌ Error reading PDF."
  | Some text => if String.eqb text "" then "❌ Unable to extract text." else strip text
  end.

Definition handle_document (file_id : string) (chat_id : Z) : Py unit :=
  py_try
    (file_info <-- py_lift (get_file_info file_id) ;;
     match file_info with
     | None => py_ret tt
     | Some file_path =>
         response <-- py_lift (download ("https://api.telegram.org/file/bot" +:+
                                          bot_token +:+ "/" +:+ file_path)) ;;
         if fst response =? 200 then
           let resume_text := extract_text_from_pdf (snd response) in
           ok <-- set_resume chat_id resume_text ;;
           if ok then
             send_message chat_id
               "✅ Resume received! I'll start sending job matches based on your profile."
               None ;;;
             ask_for_preferences chat_id
           else send_message chat_id "❌ Failed to save your resume. Please try again." None
         else send_message chat_id "❌ Failed to download the PDF." None
     end)
    (fun _ => send_message chat_id "❌ Something went wrong processing your document." None).

(** A Telegram message: [message["chat"]["id"]] ([None] when missing, so
    that the lookup raises), the document's [file_id] and the text. *)
Record tg_message := mkMessage {
  msg_chat_id : option Z;
  msg_document : option string;
  msg_text : option string
}.

Record tg_update := mkUpdate {
  update_id : Z;
  update_message : option tg_message
}.

(** [requests.get(updates_url, timeout=30).json()] for the given offset:
    [Raise] on a transport or decoding failure, [None] when the answer
    has no ["result"]. *)
Variable get_updates : option Z -> exc (option (list tg_update)).

(** The body of [for update in updates_to_process]. *)
Definition handle_update (update : tg_update) : Py unit :=
  match update_message update with
  | None => py_ret tt
  | Some message =>
      chat_id <-- py_lift (of_option KeyError (msg_chat_id message)) ;;
      is_new_user <-- register_user chat_id ;;
      match msg_document message with
      | Some file_id => handle_document file_id chat_id
      | None =>
          match msg_text message with
          | Some text =>
              if startswith text "/start" && negb is_new_user
              then parse_command text chat_id true
              else parse_command text chat_id false
          | None => py_ret tt
          end
      end
  end.

(** [?offset=last_update_id + 1] when [self.last_update_id] is truthy. *)
Definition updates_offset (last : option Z) : option Z :=
  match last with
  | Some n => if n =? 0 then None else Some (n + 1)
  | None => None
  end.

Definition max_update_id (u : tg_update) (us : list tg_update) : Z :=
  fold_left (fun m x => Z.max m (update_id x)) us (update_id u).

Definition process_telegram_updates : Py unit :=
  last <-- get_last_update_id ;;
  let offset := updates_offset last in
  py_try
    (emit (EGetUpdates offset) ;;;
     updates <-- py_lift (get_updates offset) ;;
     match updates with
     | Some ((u :: us) as updates_to_process) =>
         let m := max_update_id u us in
         put_last_update_id (Some m) ;;; emit (ESetOffset m) ;;;
         for_each handle_update updates_to_process
     | _ => py_ret tt
     end)
    (fun _ => py_ret tt).

(** *** Operations on the bot *)

(** The entry points that change the bot's state: the [UserStore]
    methods, a command, a document, a job run (the body of a thread
    started by [/jobs] or the scheduler) and one poll of Telegram. *)
Inductive op :=
| OpRegister (chat_id : Z)
| OpSetResume (chat_id : Z) (resume_text : string)
| OpSetPreferences (chat_id : Z) (keywords : option (list string))
    (location : option string) (min_score : option Z) (notification_time : option string)
| OpCommand (text : string) (chat_id : Z) (skip_welcome : bool)
| OpDocument (file_id : string) (chat_id : Z)
| OpSendJobs (chat_id : Z)
| OpPoll.

Definition run_op (o : op) : Py unit :=
  match o with
  | OpRegister c => register_user c ;;; py_ret tt
  | OpSetResume c r => set_resume c r ;;; py_ret tt
  | OpSetPreferences c k l s t => set_search_preferences c k l s t ;;; py_ret tt
  | OpCommand t c s => parse_command t c s
  | OpDocument f c => handle_document f c
  | OpSendJobs c => send_jobs_to_user c
  | OpPoll => process_telegram_updates
  end.

End Bot.

(** *** Resume analysis *)

Section Analysis.

(** [client.chat.completions.create(messages=[{"role": "user", "content":
    prompt}], model=GROQ_MODEL, temperature=t).choices[0].message.content]
    for a prompt and a temperature ([Raise] when the call fails). *)
Variable chat_completion : string -> string -> exc string.

(** The indentation of the lines of the triple-quoted prompt. *)
Definition prompt_indent : string := "        ".

(** A triple-quoted f-string whose lines are indented by [prompt_indent]:
    a newline, then each line indented and ended by a newline, then the
    indentation of the closing quotes. *)
Definition indented_block (lines : list string) : string :=
  nl +:+ fold_right (fun l acc => prompt_indent +:+ l +:+ nl +:+ acc) EmptyString lines
  +:+ prompt_indent.

(** The prompt of [get_resume_improvement_suggestions]. *)
Definition improvement_prompt (resume_text : string) (job_keywords : list string)
  : string :=
  indented_block
    ["Resume:";
     substring 0 3000 resume_text +:+ "...  # Truncate to avoid token limits";
     EmptyString;
     "Job Keywords: " +:+ join ", " job_keywords;
     EmptyString;
     "Task: Provide specific suggestions to improve this resume for jobs related to the keywords.";
     EmptyString;
     "Please provide:";
     "1. 3-5 specific improvements to make the resume more effective";
     "2. 2-3 skills or experiences that should be highlighted more prominently";
     "3. Any formatting or structure suggestions";
     EmptyString;
     "Format your response as:";
     "Improvements:";
     "- [improvement 1]";
     "- [improvement 2]...";
     EmptyString;
     "Skills to Highlight:";
     "- [skill 1]";
     "- [skill 2]...";
     EmptyString;
     "Formatting Suggestions:";
     "- [suggestion 1]";
     "- [suggestion 2]..."].

Definition improvement_error_msg : string :=
  "Error generating resume improvement suggestions.".

Definition get_resume_improvement_suggestions (resume_text : string)
    (job_keywords : list string) : string :=
  match chat_completion (improvement_prompt resume_text job_keywords) "0.3" with
  | Ret content => content
  | Raise _ => improvement_error_msg
  end.

Definition analysis_message (suggestions : string) : string :=
  "📋 *Resume Analysis*" +:+ nl +:+ nl +:+ suggestions +:+ nl +:+ nl +:+
  "Would you like me to help you implement these suggestions? Reply with /improve to get started.".

(** [''.join(filter(str.isdigit, s))] *)
Fixpoint filter_digits (s : string) : string :=
  match s with
  | EmptyString => EmptyString
  | String c r => if is_digit c then String c (filter_digits r) else filter_digits r
  end.

(** The [try] block that closes [send_resume_analysis].  Its first step
    evaluates [prompt], a name this method never assigns, so it raises
    [NameError]; the call and the parsing of a [Score:] line after it are
    kept as written. *)
Definition analysis_scoring_block : Py (option MatchResult) :=
  py_try
    (prompt <-- py_lift (Raise (A:=string) NameError) ;;
     result <-- py_lift (chat_completion prompt "0.2") ;;
     if contains result "Score:" then
       score_line <-- py_lift (py_index (List.filter (fun line => contains line "Score:")
                                           (split_char (ascii_of_nat 10) result)) 0) ;;
       score <-- py_lift (py_int (filter_digits score_line)) ;;
       py_ret (Some (mkMatchResult (Z.min (Z.max score 0) 100) result))
     else py_ret (Some (mkMatchResult 50 result)))
    (fun _ => py_ret (Some (mkMatchResult 50 "Error in analysis"))).

Definition send_resume_analysis (chat_id : Z) : Py (option MatchResult) :=
  let chat_id_str := py_str chat_id in
  u <-- get_users ;;
  match u !! chat_id_str with
  | None => py_ret None
  | Some user_data =>
      if String.eqb (resume user_data) "" then ask_for_resume chat_id ;;; py_ret None
      else
        send_message chat_id "🔍 Analyzing your resume... This may take a minute." None ;;;
        let suggestions := get_resume_improvement_suggestions (resume user_data)
                             (search_keywords user_data) in
        send_message chat_id (analysis_message suggestions) (Some "Markdown") ;;;
        analysis_scoring_block
  end.

End Analysis.

(** *** Start-up, daily alerts and scheduling *)



(** The effects of [send_jobs_to_all_users]: a thread started with
    [send_jobs_to_user] on the dictionary key, and a sleep. *)
Inductive run_event :=
| RSpawnSendJobs (chat_id_str : string)
| RSleep (seconds : Z).

(** [for chat_id, user_data in self.users.items()]: the model iterates in
    [map_to_list] order (the dictionary's is insertion order); starting a
    thread is taken not to fail. *)
Definition send_jobs_to_all_users (users : gmap string UserData) : list run_event :=
  flat_map (fun '(chat_id, user_data) =>
              if is_active user_data then [RSpawnSendJobs chat_id; RSleep 2] else [])
           (map_to_list users).

Inductive sched_when := Every15Minutes | DailyAt (at_time : string).
Inductive sched_target := HealthCheck | SendJobsToAllUsers | ScheduleUserJobs.

(** A job of the [schedule] library: when it runs and what it calls. *)
Record sched_job := mkSchedJob { sched_at : sched_when; sched_call : sched_target }.

(** How [schedule_user_jobs] ends: normally, or with the
    [ScheduleValueError] that [.at(t)] raises on a time it rejects. *)
Inductive sched_outcome := SchedOk | SchedRaised (bad_time : string).

Section Schedule.

(** Whether [schedule.every().day.at(t)] accepts [t]. *)
Variable at_ok : string -> bool.

(** [time_groups[notif_time].append(chat_id)] on an association list
    kept in insertion order. *)
Fixpoint group_add (t c : string) (groups : list (string * list string))
  : list (string * list string) :=
  match groups with
  | [] => [(t, [c])]
  | (t', cs) :: gs =>
      if String.eqb t t' then (t', (cs ++ [c])%list) :: gs
      else (t', cs) :: group_add t c gs
  end.

Definition time_groups (users : gmap string UserData) : list (string * list string) :=
  fold_left (fun groups '(chat_id, user) =>
               if is_active user then group_add (notification_time user) chat_id groups
               else groups)
            (map_to_list users) [].

(** [for notif_time, users in time_groups.items(): schedule.every().day
    .at(notif_time).do(self.send_jobs_to_all_users)] *)
Fixpoint install_daily (groups : list (string * list string)) (jobs : list sched_job)
  : list sched_job * sched_outcome :=
  match groups with
  | [] => (jobs, SchedOk)
  | (t, _) :: gs =>
      if at_ok t then install_daily gs (jobs ++ [mkSchedJob (DailyAt t) SendJobsToAllUsers])%list
      else (jobs, SchedRaised t)
  end.

(** [schedule_user_jobs]: the jobs registered after [schedule.clear()]. *)
Definition schedule_user_jobs (users : gmap string UserData)
  : list sched_job * sched_outcome :=
  let jobs := [mkSchedJob Every15Minutes HealthCheck] in
  match install_daily (time_groups users) jobs with
  | (jobs, SchedOk) =>
      if at_ok "00:01" then ((jobs ++ [mkSchedJob (DailyAt "00:01") ScheduleUserJobs])%list, SchedOk)
      else (jobs, SchedRaised "00:01")
  | r => r
  end.

End Schedule.

(* ================================================================== *)
(** * Properties *)

Open Scope list_scope.

(** ** Fixtures *)

Definition demo_now : string := "2026-10-19T09:00:00".

Definition demo_user : UserData :=
  mkUserData "Python, PyTorch, 3 years of ML" ["ML Engineer"] "India" 70 []
    "09:00" true "2026-10-18T09:00:00" true.

(** A bot whose store holds chat 42. *)
Definition demo_world : World :=
  mkWorld (mkBotState {["42" := demo_user]} {["42" := demo_user]} None) [].

Definition user_42 (w : World) : option UserData := users (st w) !! "42".

(** A LinkedIn result card. *)
Definition demo_li_card (title company loc href : string) : html_card :=
  mkCard (fun sel => if String.eqb sel "h3" then Some title
                     else if String.eqb sel "h4" then Some company
                     else if String.eqb sel ".job-search-card__location" then Some loc
                     else None)
         (fun sel => if String.eqb sel "a" then Some href else None).

Definition demo_href1 : string := "https://www.linkedin.com/jobs/view/101".
Definition demo_href2 : string := "https://www.linkedin.com/jobs/view/2002".

(** LinkedIn answers with two cards; Indeed is unreachable. *)
Definition demo_http_get (url : string) : exc http_response :=
  if startswith url "https://www.linkedin.com/" then
    Ret (mkResponse 200 (fun sel =>
      if String.eqb sel ".base-card" then
        [demo_li_card " ML Engineer " "Acme" "Bengaluru" demo_href1;
         demo_li_card "Data Scientist" "Globex" "Remote" demo_href2]
      else []))
  else Raise RequestException.

(** A stand-in for one process's [hash] on [str]. *)
Definition demo_hash (s : string) : Z := Z.of_nat (String.length s) * 7919.

(** The ids the demo postings get under [demo_hash]. *)
Definition demo_id1 : string := "li_" +:+ py_str (demo_hash demo_href1).

Definition demo_id2 : string := "li_" +:+ py_str (demo_hash demo_href2).

(** Chat 42 after both demo postings were delivered. *)
Definition demo_user_seen : UserData :=
  set_jobs_sent_field [demo_id1; demo_id2] demo_user.

Definition demo_world_seen : World :=
  mkWorld (mkBotState {["42" := demo_user_seen]} {["42" := demo_user_seen]} None) [].

Definition demo_updates : list tg_update :=
  [mkUpdate 10 (Some (mkMessage (Some 42) None (Some "/help")));
   mkUpdate 11 (Some (mkMessage (Some 42) None (Some "/pause")))].

(** Telegram returns the two updates when no offset is given. *)
Definition demo_get_updates (offset : option Z) : exc (option (list tg_update)) :=
  match offset with None => Ret (Some demo_updates) | Some _ => Ret (Some []) end.

(** An Indeed result card. *)
Definition demo_indeed_card (title company loc href : string) : html_card :=
  mkCard (fun sel => if String.eqb sel "h2 a" then Some title
                     else if String.eqb sel ".companyName" then Some company
                     else if String.eqb sel ".companyLocation" then Some loc
                     else None)
         (fun sel => if String.eqb sel "h2 a" then Some href else None).

(** The [hash] on [str] of a second process, started with another salt. *)
Definition demo_hash_restarted (s : string) : Z := demo_hash s + 1.

(** The texts of some replies of the bot, and the URL [handle_document]
    downloads a file from. *)

Definition searching_msg : string :=
  "🔍 Searching for jobs matching your profile... This may take a minute.".

Definition resume_request_msg : string :=
  "🚀 Please send your resume (as a PDF) so I can match jobs for you!".




(** The prefixes [parse_command] tests, in its order. *)
Definition command_prefixes : list string :=
  ["/start"; "/help"; "/preferences"; "/keywords"; "/location"; "/score"; "/time";
   "/jobs"; "/analyze"; "/pause"; "/resume"].

(** A poll whose second message has no chat. *)
Definition demo_batch_chatless : list tg_update :=
  [mkUpdate 20 (Some (mkMessage (Some 42) None (Some "/help")));
   mkUpdate 21 (Some (mkMessage None None (Some "hello")));
   mkUpdate 22 (Some (mkMessage (Some 42) None (Some "/pause")))].

Definition demo_get_updates_chatless (offset : option Z)
  : exc (option (list tg_update)) :=
  match offset with None => Ret (Some demo_batch_chatless) | Some _ => Ret (Some []) end.

(** A text message from chat 7, which [demo_world] does not know. *)
Definition demo_start_update (text : string) : tg_update :=
  mkUpdate 30 (Some (mkMessage (Some 7) None (Some text))).

(** A stand-in for the [schedule] library's check of a daily time:
    ["HH:MM"] with hours below 24 and minutes below 60. *)
Definition demo_at_ok (t : string) : bool :=
  match t with
  | String h1 (String h2 (String c (String m1 (String m2 EmptyString)))) =>
      Ascii.eqb c ":" &&
      match digits (String h1 (String h2 EmptyString)),
            digits (String m1 (String m2 EmptyString)) with
      | Some h, Some m => (h <? 24) && (m <? 60)
      | _, _ => false
      end
  | _ => false
  end.

Example strip_ex : strip "  /time 8:30 " = "/time 8:30".
Proof. reflexivity. Qed.
Example replace_ex : replace "/time 8:30" "/time" "" = " 8:30".
Proof. reflexivity. Qed.
Example split_ex : split_char "|" "a | b|c" = ["a "; " b"; "c"].
Proof. reflexivity. Qed.
Example split_ws_ex : split_ws " AI  Engineer x" = ["AI"; "Engineer"; "x"].
Proof. reflexivity. Qed.
Example py_int_ex : py_int " -1_50 " = Ret (-150).
Proof. reflexivity. Qed.
Example py_int_bad : py_int "7a" = Raise ValueError.
Proof. reflexivity. Qed.
Example py_str_ex : py_str (-42) = "-42".
Proof. reflexivity. Qed.
Example new_user_defaults :
  user_42 (fst (register_user demo_now 42
     (mkWorld (mkBotState ∅ ∅ None) []))) =
  Some (mkUserData "" ["AI Engineer"] "India" 70 [] "09:00" true demo_now true).
Proof. vm_compute. reflexivity. Qed.

Example preferences_scenario :
  option_map (fun d => (search_keywords d, search_location d, min_match_score d,
                        notification_time d))
    (user_42 (fst (parse_command demo_now
       "/preferences Data Scientist, ML Engineer | Remote | 80 | 08:30" 42 false
       demo_world))) =
  Some (["Data Scientist"; "ML Engineer"], "Remote", 80, "08:30").
Proof. vm_compute. reflexivity. Qed.

(** ** Commands *)

(** Scenario 6 of the spec: [/time 8:30] is refused, whatever the state. *)
Lemma time_8_30_rejected (now : string) (chat_id : Z) (w : World) :
  parse_command now "/time 8:30" chat_id false w =
  (mkWorld (st w) (trace w ++ [ESend chat_id time_format_msg None]), Ret tt).
Proof. vm_compute. reflexivity. Qed.

(** C5 (code_bug).  The [/time] guard checks the length and that a colon
    occurs somewhere, not that it is at index 2: [/time 1:234] is accepted
    and stored as the notification time, with a success reply. *)
Theorem time_command_accepts_misplaced_colon :
  let w' := fst (parse_command demo_now "/time 1:234" 42 false demo_world) in
  option_map notification_time (user_42 w') = Some "1:234" /\
  trace w' = [ESave; ESend 42 "✅ Daily notification time updated to: 1:234" None].
Proof. vm_compute. split; reflexivity. Qed.

(** The [/score] command refuses 150. *)
Lemma score_command_rejects_150 :
  let w' := fst (parse_command demo_now "/score 150" 42 false demo_world) in
  option_map min_match_score (user_42 w') = Some 70 /\
  trace w' = [ESend 42 "❌ Score must be between 0 and 100." None].
Proof. vm_compute. split; reflexivity. Qed.

(** C2 (code_bug).  The [/preferences] branch stores [int(parts[2])]
    without the range check of the [/score] branch: after
    [/preferences AI Engineer | India | 150 | 09:00] the stored
    [min_match_score] is 150. *)
Theorem preferences_stores_out_of_range_score :
  let w' := fst (parse_command demo_now
                   "/preferences AI Engineer | India | 150 | 09:00" 42 false demo_world) in
  option_map min_match_score (user_42 w') = Some 150 /\
  trace w' = [ESave; ESend 42 "✅ Your job search preferences have been updated!" None].
Proof. vm_compute. split; reflexivity. Qed.

(** ** The user store *)

(** C10.  On an id absent from the store, [set_resume] and
    [set_search_preferences] return [False] and leave the whole bot state
    and the trace as they were; [register_user] on a registered id returns
    [False] and changes nothing either. *)
Theorem userstore_noop_cases (now : string) (chat_id : Z) (w : World) :
  (users (st w) !! py_str chat_id = None ->
     (forall resume_text, set_resume now chat_id resume_text w = (w, Ret false)) /\
     (forall keywords location min_score notification_time,
        set_search_preferences now chat_id keywords location min_score
          notification_time w = (w, Ret false))) /\
  (forall d, users (st w) !! py_str chat_id = Some d ->
     register_user now chat_id w = (w, Ret false)).
Proof.
  split.
  - intros Hnone. split.
    + intros r. unfold set_resume, py_bind, get_users. simpl. rewrite Hnone. reflexivity.
    + intros k l s t. unfold set_search_preferences, py_bind, get_users. simpl.
      rewrite Hnone. reflexivity.
  - intros d Hd. unfold register_user, py_bind, get_users. simpl. rewrite Hd. reflexivity.
Qed.

Lemma userstore_noop_cases_witness :
  (users (st demo_world) !! py_str 7 = None /\
   set_resume demo_now 7 "cv" demo_world = (demo_world, Ret false)) /\
  (users (st demo_world) !! py_str 42 = Some demo_user /\
   register_user demo_now 42 demo_world = (demo_world, Ret false)).
Proof.
  split; split.
  - vm_compute. reflexivity.
  - apply (userstore_noop_cases demo_now 7 demo_world). vm_compute. reflexivity.
  - vm_compute. reflexivity.
  - apply (userstore_noop_cases demo_now 42 demo_world) with (d := demo_user).
    vm_compute. reflexivity.
Defined.

(** ** Scraping *)

(** The postings a list of cards yields, dropping those that raise. *)
Fixpoint parsed (parse : html_card -> exc Job) (cards : list html_card) : list Job :=
  match cards with
  | [] => []
  | c :: cs => match parse c with
               | Ret j => j :: parsed parse cs
               | Raise _ => parsed parse cs
               end
  end.

(** What one source's [try] block contributes. *)
Definition source_result (http_get : string -> exc http_response)
    (url_of : string -> string) (selector : string) (parse : html_card -> exc Job)
    (keywords : list string) : list Job :=
  match keywords_str keywords with
  | Raise _ => []
  | Ret kw =>
      match http_get (url_of kw) with
      | Raise _ => []
      | Ret response =>
          if status_code response =? 200
          then parsed parse (firstn 10 (select response selector))
          else []
      end
  end.

Lemma append_parsed_app parse cards job_list :
  append_parsed parse cards job_list = job_list ++ parsed parse cards.
Proof.
  revert job_list. induction cards as [|c cs IH]; intros job_list; simpl.
  - by rewrite app_nil_r.
  - destruct (parse c); rewrite IH; [by rewrite <- app_assoc | done].
Qed.

Lemma parsed_length parse cards : (length (parsed parse cards) <= length cards)%nat.
Proof. induction cards as [|c cs IH]; simpl; [lia|]. destruct (parse c); simpl; lia. Qed.

Lemma source_result_le_10 http_get url_of selector parse keywords :
  (length (source_result http_get url_of selector parse keywords) <= 10)%nat.
Proof.
  unfold source_result.
  destruct (keywords_str keywords) as [kw|]; simpl; [|lia].
  destruct (http_get (url_of kw)) as [r|]; simpl; [|lia].
  destruct (status_code r =? 200); simpl; [|lia].
  etransitivity; [apply parsed_length|]. rewrite length_firstn. lia.
Qed.

(** The events of a scrape: the random sleep and the HTTP requests. *)
Definition is_request (e : event) : Prop :=
  match e with ESleepRandom | EHttpGet _ => True | _ => False end.

Lemma source_block_spec http_get url_of selector parse keywords job_list w :
  exists evs,
    source_block http_get url_of selector parse keywords job_list w =
    (mkWorld (st w) (trace w ++ evs),
     Ret (job_list ++ source_result http_get url_of selector parse keywords)) /\
    Forall is_request evs.
Proof.
  unfold source_block, source_result, py_try, py_bind, py_lift, emit, py_ret.
  destruct (keywords_str keywords) as [kw|e]; simpl.
  - exists [EHttpGet (url_of kw)]. split; [|repeat constructor].
    destruct (http_get (url_of kw)) as [r|e]; simpl; [|by rewrite app_nil_r].
    destruct (status_code r =? 200); simpl;
      [by rewrite append_parsed_app | by rewrite app_nil_r].
  - exists []. split; [|constructor]. rewrite !app_nil_r. by destruct w.
Qed.

Lemma scrape_jobs_spec http_get str_hash keywords location w :
  exists evs,
    scrape_jobs http_get str_hash keywords location w =
    (mkWorld (st w) (trace w ++ evs),
     Ret (source_result http_get (linkedin_url location) ".base-card"
            (linkedin_job str_hash) keywords ++
          source_result http_get (indeed_url location) ".job_seen_beacon"
            (indeed_job str_hash) keywords)) /\
    Forall is_request evs.
Proof.
  unfold scrape_jobs, py_bind at 1, emit. simpl.
  destruct (source_block_spec http_get (linkedin_url location) ".base-card"
              (linkedin_job str_hash) keywords [] (mkWorld (st w) (trace w ++ [ESleepRandom])))
    as [evs1 [E1 F1]].
  unfold py_bind at 1. rewrite E1. simpl.
  destruct (source_block_spec http_get (indeed_url location) ".job_seen_beacon"
              (indeed_job str_hash) keywords
              (source_result http_get (linkedin_url location) ".base-card"
                 (linkedin_job str_hash) keywords)
              (mkWorld (st w) ((trace w ++ [ESleepRandom]) ++ evs1))) as [evs2 [E2 F2]].
  unfold py_bind. rewrite E2. simpl.
  exists ((ESleepRandom :: evs1) ++ evs2). split.
  - by rewrite <- !app_assoc.
  - apply Forall_app. split; [constructor; [exact I|]|]; done.
Qed.

(** C9.  [scrape_jobs] never raises and leaves the bot state alone: it
    returns the LinkedIn block's postings followed by the Indeed block's,
    each block contributes at most 10, a block whose keyword string,
    request or status fails contributes nothing without affecting the
    other, and inside a block the cards whose parsing raises are
    skipped. *)
Theorem scrape_jobs_isolates_sources
    (http_get : string -> exc http_response) (str_hash : string -> Z)
    (keywords : list string) (location : string) (w : World) :
  let li := source_result http_get (linkedin_url location) ".base-card"
              (linkedin_job str_hash) keywords in
  let ind := source_result http_get (indeed_url location) ".job_seen_beacon"
               (indeed_job str_hash) keywords in
  (exists evs, scrape_jobs http_get str_hash keywords location w =
               (mkWorld (st w) (trace w ++ evs), Ret (li ++ ind))) /\
  (length li <= 10)%nat /\ (length ind <= 10)%nat /\
  (forall url_of selector parse,
     (keywords = [] -> source_result http_get url_of selector parse keywords = []) /\
     (forall kw e, keywords_str keywords = Ret kw -> http_get (url_of kw) = Raise e ->
        source_result http_get url_of selector parse keywords = []) /\
     (forall kw r, keywords_str keywords = Ret kw -> http_get (url_of kw) = Ret r ->
        status_code r = 200 ->
        source_result http_get url_of selector parse keywords =
        parsed parse (firstn 10 (select r selector)))).
Proof.
  intros li ind. split; [|split; [|split]].
  - destruct (scrape_jobs_spec http_get str_hash keywords location w) as [evs [E _]].
    by exists evs.
  - apply source_result_le_10.
  - apply source_result_le_10.
  - intros url_of selector parse. split; [|split].
    + intros ->. reflexivity.
    + intros kw e Hk Hg. unfold source_result. by rewrite Hk, Hg.
    + intros kw r Hk Hg Hs. unfold source_result. rewrite Hk, Hg, Hs. reflexivity.
Qed.

(** ** Store invariants *)

(** Every record of [self.users] satisfies [Q]. *)
Definition store_inv (Q : UserData -> Prop) (w : World) : Prop :=
  map_Forall (fun _ d => Q d) (users (st w)).

Definition preserves {A} (P : World -> Prop) (m : Py A) : Prop :=
  forall w, P w -> P (fst (m w)).

(** A predicate on the bot that reads neither the trace nor the saved
    file. *)
Class StateOnly (P : World -> Prop) := {
  state_only_trace : forall b t t', P (mkWorld b t) -> P (mkWorld b t');
  state_only_db : forall u db db' o t,
    P (mkWorld (mkBotState u db o) t) -> P (mkWorld (mkBotState u db' o) t)
}.

Section Preservation.

Context (P : World -> Prop) `{!StateOnly P}.

Lemma pres_ret {A} (a : A) : preserves P (py_ret a).
Proof. by intros w Hw. Qed.

Lemma pres_raise {A} e : preserves P (@py_raise A e).
Proof. by intros w Hw. Qed.

Lemma pres_lift {A} (m : exc A) : preserves P (py_lift m).
Proof. by intros w Hw. Qed.

Lemma pres_get_users : preserves P get_users.
Proof. by intros w Hw. Qed.

Lemma pres_get_last : preserves P get_last_update_id.
Proof. by intros w Hw. Qed.

Lemma pres_emit e : preserves P (emit e).
Proof. intros [b t] Hw. simpl. by eapply state_only_trace. Qed.

Lemma pres_save : preserves P save_users.
Proof.
  intros [[u db o] t] Hw. unfold save_users, py_bind, emit. simpl.
  eapply state_only_db, state_only_trace, Hw.
Qed.

Lemma pres_bind {A B} (m : Py A) (k : A -> Py B) :
  preserves P m -> (forall a, preserves P (k a)) -> preserves P (py_bind m k).
Proof.
  intros Hm Hk w Hw. unfold py_bind.
  specialize (Hm w Hw). destruct (m w) as [w' [a|e]]; simpl in *; [|done].
  by apply Hk.
Qed.

Lemma pres_try {A} (m : Py A) (h : exn -> Py A) :
  preserves P m -> (forall e, preserves P (h e)) -> preserves P (py_try m h).
Proof.
  intros Hm Hh w Hw. unfold py_try.
  specialize (Hm w Hw). destruct (m w) as [w' [a|e]]; simpl in *; [done|].
  by apply Hh.
Qed.

Lemma pres_for_each {A} (f : A -> Py unit) (l : list A) :
  (forall a, preserves P (f a)) -> preserves P (for_each f l).
Proof.
  intros Hf. induction l as [|a l IH]; simpl; [apply pres_ret|].
  apply pres_bind; auto.
Qed.

End Preservation.

Global Instance store_inv_state_only Q : StateOnly (store_inv Q).
Proof. split; by intros. Qed.

(** [self.last_update_id] is [n]. *)
Definition offset_is (n : option Z) (w : World) : Prop := last_update_id (st w) = n.

Global Instance offset_is_state_only n : StateOnly (offset_is n).
Proof. split; by intros. Qed.

Section StoreInv.

Variable Q : UserData -> Prop.

Lemma pres_put_last o : preserves (store_inv Q) (put_last_update_id o).
Proof. by intros w Hw. Qed.

Lemma pres_user_update k f :
  (forall d, Q d -> Q (f d)) -> preserves (store_inv Q) (user_update k f).
Proof.
  intros Hf w Hw. unfold user_update, py_bind, get_users. simpl.
  destruct (users (st w) !! k) as [d|] eqn:Hk; simpl; [|done].
  unfold store_inv; simpl. apply map_Forall_insert_2; [|done].
  apply Hf. by apply (Hw k).
Qed.

Lemma pres_register now chat_id :
  Q (new_user_record now) -> preserves (store_inv Q) (register_user now chat_id).
Proof.
  intros Hnew w Hw. unfold register_user, py_bind, get_users. simpl.
  destruct (users (st w) !! py_str chat_id); simpl; [done|].
  unfold store_inv; simpl. by apply map_Forall_insert_2.
Qed.

End StoreInv.

Lemma offset_user_update n k f : preserves (offset_is n) (user_update k f).
Proof.
  intros w Hw. unfold user_update, py_bind, get_users. simpl.
  by destruct (users (st w) !! k).
Qed.

Lemma offset_register n now chat_id : preserves (offset_is n) (register_user now chat_id).
Proof.
  intros w Hw. unfold register_user, py_bind, get_users, save_users, emit. simpl.
  by destruct (users (st w) !! py_str chat_id).
Qed.

Create HintDb pres_db.
#[export] Hint Resolve pres_ret pres_raise pres_lift pres_emit pres_get_users
  pres_get_last pres_put_last pres_save offset_user_update offset_register : pres_db.

(** Unfold the program's definitions down to the combinators. *)
Ltac pres_unfold :=
  unfold run_op, parse_command, preferences_command, keywords_command,
    location_command, score_command, time_command, set_active,
    set_search_preferences, set_resume, ask_for_resume, ask_for_preferences,
    send_message, when_some, user_lookup, handle_document, handle_update,
    process_telegram_updates, scrape_jobs, source_block, send_jobs_to_user,
    send_jobs_to_user_with.

(** Walk through a [Py] program built from the combinators above. *)
Ltac pres_step :=
  match goal with
  | |- preserves _ (py_bind _ _) => apply pres_bind; [|intros ?]
  | |- preserves _ (py_try _ _) => apply pres_try; [|intros ?]
  | |- preserves _ (for_each _ _) => apply pres_for_each; intros ?
  | |- preserves (store_inv _) (user_update _ _) => apply pres_user_update; intros ? ?
  | |- preserves (store_inv _) (register_user _ _) => apply pres_register
  | |- preserves _ (if ?b then _ else _) => destruct b
  | |- preserves _ (match ?x with _ => _ end) => destruct x
  | |- preserves _ (let _ := _ in _) => cbv zeta
  | |- preserves _ _ => solve [eauto with pres_db]
  | |- preserves _ _ => progress pres_unfold
  end.

(** *** Bounded [jobs_sent] *)

Definition sent_le_100 (d : UserData) : Prop := (length (jobs_sent d) <= 100)%nat.

Lemma record_sent_le l x : (length (record_sent l x) <= 100)%nat.
Proof.
  unfold record_sent, py_last.
  destruct (100 <? length (l ++ [x]))%nat eqn:E.
  - rewrite length_drop. lia.
  - apply Nat.ltb_ge in E. lia.
Qed.

Lemma record_sent_last l x : record_sent l x = py_last 100 (l ++ [x]).
Proof.
  unfold record_sent, py_last.
  destruct (100 <? length (l ++ [x]))%nat eqn:E; [done|].
  apply Nat.ltb_ge in E. by replace (length (l ++ [x]) - 100)%nat with 0%nat by lia.
Qed.

Lemma py_last_suffix {A} n (l : list A) :
  l = take (length l - n) l ++ py_last n l /\
  length (py_last n l) = Nat.min n (length l).
Proof.
  unfold py_last. split; [by rewrite take_drop|]. rewrite length_drop. lia.
Qed.

Lemma deliver_loop_pres_sent scorer chat_id chat_id_str jobs m :
  preserves (store_inv sent_le_100) (deliver_loop scorer chat_id chat_id_str jobs m).
Proof.
  revert m. induction jobs as [|j js IH]; intros m; simpl; [apply pres_ret|].
  unfold user_lookup.
  repeat pres_step; try apply IH; simpl; unfold sent_le_100; simpl;
    try apply record_sent_le; auto.
Qed.

Lemma run_op_pres_sent now http_get str_hash bot_token get_file_info download pdf_text
    get_updates (o : op) :
  preserves (store_inv sent_le_100)
    (run_op now http_get str_hash bot_token get_file_info download pdf_text get_updates o).
Proof.
  destruct o; repeat pres_step; try apply deliver_loop_pres_sent;
    unfold sent_le_100 in *; simpl in *; auto with lia.
Qed.

(** C6.  Every operation of the bot keeps every user's [jobs_sent] at
    100 entries or fewer; each append keeps the last 100 entries of the
    extended list, i.e. the oldest entries are the ones dropped. *)
Theorem jobs_sent_bounded_oldest_evicted :
  (forall now http_get str_hash bot_token get_file_info download pdf_text
          get_updates (o : op) (w : World),
     store_inv sent_le_100 w ->
     store_inv sent_le_100
       (fst (run_op now http_get str_hash bot_token get_file_info download pdf_text
               get_updates o w))) /\
  (forall (l : list string) (x : string), record_sent l x = py_last 100 (l ++ [x])) /\
  (forall (l : list string),
     l = take (length l - 100) l ++ py_last 100 l /\
     length (py_last 100 l) = Nat.min 100 (length l)).
Proof.
  split; [|split].
  - intros. by apply run_op_pres_sent.
  - apply record_sent_last.
  - intros l. apply py_last_suffix.
Qed.

Lemma jobs_sent_bounded_oldest_evicted_witness :
  store_inv sent_le_100 demo_world /\
  store_inv sent_le_100
    (fst (run_op demo_now demo_http_get demo_hash "TOKEN"
            (fun _ => Raise RequestException) (fun _ => Raise RequestException)
            (fun _ => None) (fun _ => Ret None) (OpSendJobs 42) demo_world)).
Proof.
  assert (H : store_inv sent_le_100 demo_world)
    by (apply (bool_decide_unpack _); vm_compute; reflexivity).
  split; [exact H|].
  exact (proj1 jobs_sent_bounded_oldest_evicted demo_now demo_http_get demo_hash "TOKEN"
           (fun _ => Raise RequestException) (fun _ => Raise RequestException)
           (fun _ => None) (fun _ => Ret None) (OpSendJobs 42) demo_world H).
Defined.

(** ** Scoring and delivery *)

(** C1 (code_bug).  [get_match_score] returns [None] for every posting
    and resume, so [send_jobs_to_user] raises [TypeError] at
    [match_result["score"]] on the first new posting: for chat 42 with two
    new LinkedIn postings the run ends in that exception right after the
    first scoring call, with no match notification and no summary sent. *)
Theorem get_match_score_none_aborts_run :
  (forall job_data resume_text, get_match_score job_data resume_text = None) /\
  let '(w', r) := send_jobs_to_user demo_http_get demo_hash 42 demo_world in
  r = Raise TypeError /\
  trace w' = [ESleepRandom; EHttpGet (linkedin_url "India" "ML+Engineer");
              EHttpGet (indeed_url "India" "ML+Engineer");
              ERecordSent demo_id1; EScoreCall demo_id1].
Proof. split; [reflexivity|]. vm_compute. split; reflexivity. Qed.

(** C7 (code_bug).  In the same run, the identity of the second new
    posting is never added to [jobs_sent]: the loop stops at the first
    scoring; the first identity was added before that call, in memory
    only, since [save_users] is never reached. *)
Theorem second_new_posting_not_recorded :
  let '(w', r) := send_jobs_to_user demo_http_get demo_hash 42 demo_world in
  option_map jobs_sent (user_42 w') = Some [demo_id1] /\
  Forall (fun e => e <> ERecordSent demo_id2 /\ e <> EScoreCall demo_id2) (trace w') /\
  option_map jobs_sent (users_db (st w') !! "42") = Some [].
Proof.
  vm_compute. split; [reflexivity|split; [|reflexivity]].
  repeat constructor; discriminate.
Qed.

(** ** Which postings a run touches *)

(** [P] holds of the posting identity an event is about, if any. *)
Definition ev_ok (P : string -> Prop) (e : event) : Prop :=
  match e with
  | ERecordSent x | EScoreCall x => P x
  | EMatchSent _ j _ _ => P (job_id j)
  | _ => True
  end.

(** [m] only appends to the trace, and only events satisfying [E]. *)
Definition grows (E : event -> Prop) {A} (m : Py A) : Prop :=
  forall w, exists evs, trace (fst (m w)) = trace w ++ evs /\ Forall E evs.

Section Growth.

Variable E : event -> Prop.

Lemma grows_same {A} (m : Py A) :
  (forall w, trace (fst (m w)) = trace w) -> grows E m.
Proof. intros H w. exists []. by rewrite H, app_nil_r. Qed.

Lemma grows_emit e : E e -> grows E (emit e).
Proof. intros He w. exists [e]. split; [done|by constructor]. Qed.

Lemma grows_bind {A B} (m : Py A) (k : A -> Py B) :
  grows E m -> (forall a, grows E (k a)) -> grows E (py_bind m k).
Proof.
  intros Hm Hk w. unfold py_bind.
  destruct (Hm w) as [evs1 [T1 F1]].
  destruct (m w) as [w' [a|e]] eqn:Em; simpl in *.
  - destruct (Hk a w') as [evs2 [T2 F2]]. exists (evs1 ++ evs2).
    rewrite T2, T1, app_assoc. split; [done|]. by apply Forall_app.
  - by exists evs1.
Qed.

Lemma grows_try {A} (m : Py A) (h : exn -> Py A) :
  grows E m -> (forall e, grows E (h e)) -> grows E (py_try m h).
Proof.
  intros Hm Hh w. unfold py_try.
  destruct (Hm w) as [evs1 [T1 F1]].
  destruct (m w) as [w' [a|e]] eqn:Em; simpl in *; [by exists evs1|].
  destruct (Hh e w') as [evs2 [T2 F2]]. exists (evs1 ++ evs2).
  rewrite T2, T1, app_assoc. split; [done|]. by apply Forall_app.
Qed.

Lemma grows_ret {A} (a : A) : grows E (py_ret a).
Proof. by apply grows_same. Qed.
Lemma grows_raise {A} e : grows E (@py_raise A e).
Proof. by apply grows_same. Qed.
Lemma grows_lift {A} (m : exc A) : grows E (py_lift m).
Proof. by apply grows_same. Qed.
Lemma grows_get_users : grows E get_users.
Proof. by apply grows_same. Qed.
Lemma grows_user_update k f : grows E (user_update k f).
Proof.
  apply grows_same. intros w. unfold user_update, py_bind, get_users. simpl.
  by destruct (users (st w) !! k).
Qed.
Lemma grows_save : E ESave -> grows E save_users.
Proof.
  intros He. unfold save_users. apply grows_bind; [by apply grows_emit|].
  intros _. by apply grows_same.
Qed.

Lemma grows_put_users u : grows E (put_users u).
Proof. by apply grows_same. Qed.
Lemma grows_get_last : grows E get_last_update_id.
Proof. by apply grows_same. Qed.
Lemma grows_put_last o : grows E (put_last_update_id o).
Proof. by apply grows_same. Qed.

Lemma grows_for_each {A} (f : A -> Py unit) (l : list A) :
  (forall a, grows E (f a)) -> grows E (for_each f l).
Proof.
  intros Hf. induction l as [|a l IH]; simpl; [apply grows_ret|].
  apply grows_bind; auto.
Qed.

End Growth.

Create HintDb grows_db.
#[export] Hint Resolve grows_ret grows_raise grows_lift grows_get_users
  grows_user_update grows_put_users grows_get_last grows_put_last : grows_db.

Ltac grows_step :=
  match goal with
  | |- grows _ (py_bind _ _) => apply grows_bind; [|intros ?]
  | |- grows _ (py_try _ _) => apply grows_try; [|intros ?]
  | |- grows _ (emit _) => apply grows_emit
  | |- grows _ save_users => apply grows_save
  | |- grows _ (if ?b then _ else _) => destruct b
  | |- grows _ (match ?x with _ => _ end) => destruct x
  | |- grows _ (for_each _ _) => apply grows_for_each; intros ?
  | |- grows _ (let _ := _ in _) => cbv zeta
  | |- grows _ _ => solve [eauto with grows_db]
  | |- grows _ _ => progress unfold user_lookup, send_message, ask_for_resume
  | |- grows _ _ => progress (pres_unfold; unfold register_user)
  end.

Lemma deliver_loop_events scorer chat_id chat_id_str (P : string -> Prop) jobs m :
  Forall (fun j => P (job_id j)) jobs ->
  grows (ev_ok P) (deliver_loop scorer chat_id chat_id_str jobs m).
Proof.
  intros HP. revert m. induction HP as [|j js Pj _ IH]; intros m; simpl;
    [apply grows_ret|].
  repeat grows_step; simpl; auto.
Qed.

Lemma is_new_job_spec sent j : is_new_job sent j = true <-> job_id j ∉ sent.
Proof.
  unfold is_new_job. rewrite negb_true_iff, <- not_true_iff_false, existsb_exists.
  split.
  - intros Hn Hin. apply Hn. exists (job_id j). split; [by apply list_elem_of_In|].
    apply String.eqb_refl.
  - intros Hn [x [Hx Heq]]. apply String.eqb_eq in Heq. subst x.
    apply Hn. by apply list_elem_of_In.
Qed.

Lemma request_ev_ok P e : is_request e -> ev_ok P e.
Proof. by destruct e. Qed.

Lemma filter_new_jobs_ok sent (l : list Job) :
  Forall (fun j => job_id j ∉ sent) (List.filter (is_new_job sent) l).
Proof.
  apply Forall_forall. intros j Hj. apply list_elem_of_In, filter_In in Hj as [_ Hj].
  by apply is_new_job_spec.
Qed.

Lemma filter_all_sent sent (l : list Job) :
  Forall (fun j => job_id j ∈ sent) l -> List.filter (is_new_job sent) l = [].
Proof.
  induction 1 as [|j l Hj _ IH]; simpl; [done|].
  destruct (is_new_job sent j) eqn:E; [|done].
  apply is_new_job_spec in E. contradiction.
Qed.

(** C8.  A job run never records, scores or delivers a posting whose
    identity was in the user's [jobs_sent] when the run started, whatever
    the scorer; and when every fetched posting was delivered before, an
    active user with a resume gets exactly one message, the "no new job
    matches" one, after the scraping requests, and the store is untouched. *)
Theorem already_delivered_postings_filtered
    (scorer : Job -> string -> option MatchResult)
    (http_get : string -> exc http_response) (str_hash : string -> Z)
    (chat_id : Z) (w : World) (d : UserData) :
  users (st w) !! py_str chat_id = Some d ->
  let fetched :=
    source_result http_get (linkedin_url (search_location d)) ".base-card"
      (linkedin_job str_hash) (search_keywords d) ++
    source_result http_get (indeed_url (search_location d)) ".job_seen_beacon"
      (indeed_job str_hash) (search_keywords d) in
  (exists evs,
     trace (fst (send_jobs_to_user_with http_get str_hash scorer chat_id w)) =
       trace w ++ evs /\
     Forall (ev_ok (fun x => x ∉ jobs_sent d)) evs) /\
  (is_active d = true -> resume d <> "" ->
   Forall (fun j => job_id j ∈ jobs_sent d) fetched ->
   exists evs,
     send_jobs_to_user_with http_get str_hash scorer chat_id w =
       (mkWorld (st w) (trace w ++ evs ++ [ESend chat_id no_new_jobs_msg None]), Ret tt) /\
     Forall is_request evs).
Proof.
  intros Hd. cbv zeta.
  destruct (scrape_jobs_spec http_get str_hash (search_keywords d) (search_location d) w)
    as [evs [E F]].
  set (fetched := source_result http_get (linkedin_url (search_location d)) ".base-card"
                    (linkedin_job str_hash) (search_keywords d) ++
                  source_result http_get (indeed_url (search_location d))
                    ".job_seen_beacon" (indeed_job str_hash) (search_keywords d)) in *.
  split.
  - unfold send_jobs_to_user_with, py_bind at 1, get_users. rewrite Hd. simpl.
    destruct (is_active d); simpl; [|exists []; by rewrite app_nil_r].
    destruct (String.eqb (resume d) ""); simpl.
    { exists [ESend chat_id "🚀 Please send your resume (as a PDF) so I can match jobs for you!" None].
      split; [done|by repeat constructor]. }
    unfold py_bind at 1. rewrite E. simpl.
    assert (Fr : Forall (ev_ok (fun x => x ∉ jobs_sent d)) evs)
      by (eapply Forall_impl; [exact F|]; intros e; apply request_ev_ok).
    destruct fetched as [|j js].
    + exists (evs ++ [ESend chat_id no_new_jobs_msg None]).
      rewrite app_assoc. split; [done|]. apply Forall_app. split; [done|by repeat constructor].
    + unfold user_lookup, py_bind at 1, get_users. cbn -[List.filter deliver_loop].
      rewrite Hd. cbn -[List.filter deliver_loop].
      match goal with
      | |- exists _, trace (fst (?prog ?w0)) = _ /\ _ =>
          assert (G : grows (ev_ok (fun x => x ∉ jobs_sent d)) prog);
          [|destruct (G w0) as [evs2 [T2 F2]]; exists (evs ++ evs2);
            rewrite T2; simpl; rewrite app_assoc; split; [done|by apply Forall_app]]
      end.
      pose proof (filter_new_jobs_ok (jobs_sent d) (j :: js)) as Hnew.
      set (nj := List.filter (is_new_job (jobs_sent d)) (j :: js)) in *.
      clearbody nj. destruct nj as [|x xs].
      * repeat grows_step; simpl; auto.
      * apply grows_bind; [by apply deliver_loop_events|intros ?].
        repeat grows_step; simpl; auto.
  - intros Hact Hres Hall.
    unfold send_jobs_to_user_with, py_bind at 1, get_users. rewrite Hd. simpl.
    rewrite Hact. simpl.
    apply String.eqb_neq in Hres. rewrite Hres.
    unfold py_bind at 1. rewrite E. simpl.
    exists evs. split; [|done].
    destruct fetched as [|j js].
    + unfold send_message, emit. simpl. by rewrite app_assoc.
    + unfold user_lookup, py_bind at 1, get_users. cbn -[List.filter].
      rewrite Hd. cbn -[List.filter].
      rewrite (filter_all_sent (jobs_sent d) (j :: js) Hall).
      unfold send_message, emit. simpl. by rewrite app_assoc.
Qed.

Lemma already_delivered_postings_filtered_witness :
  users (st demo_world_seen) !! py_str 42 = Some demo_user_seen /\
  exists evs,
    send_jobs_to_user demo_http_get demo_hash 42 demo_world_seen =
      (mkWorld (st demo_world_seen)
         (trace demo_world_seen ++ evs ++ [ESend 42 no_new_jobs_msg None]), Ret tt) /\
    Forall is_request evs.
Proof.
  assert (Hd : users (st demo_world_seen) !! py_str 42 = Some demo_user_seen)
    by (vm_compute; reflexivity).
  split; [exact Hd|].
  apply (proj2 (already_delivered_postings_filtered get_match_score demo_http_get demo_hash
                  42 demo_world_seen demo_user_seen Hd)).
  - reflexivity.
  - vm_compute. discriminate.
  - apply (bool_decide_unpack _). vm_compute. reflexivity.
Defined.

(** ** Polling Telegram *)

Lemma handle_updates_grow now bot_token get_file_info download pdf_text l :
  grows (fun _ => True)
    (for_each (handle_update now bot_token get_file_info download pdf_text) l).
Proof. repeat grows_step; auto. Qed.

Lemma handle_updates_keep_offset now bot_token get_file_info download pdf_text n l :
  preserves (offset_is n)
    (for_each (handle_update now bot_token get_file_info download pdf_text) l).
Proof. repeat pres_step. Qed.

(** ** Polling Telegram *)

(** C4, counterexample.  On a batch of two well-formed messages, the
    offset is set to 11 right after the request, before the first message
    ([/help]) is processed. *)
Lemma poll_sets_offset_before_processing_cex :
  let w' := fst (process_telegram_updates demo_now "TOKEN"
                   (fun _ => Raise RequestException) (fun _ => Raise RequestException)
                   (fun _ => None) demo_get_updates demo_world) in
  exists rest, trace w' = [EGetUpdates None; ESetOffset 11] ++ rest /\
               In (ESend 42 help_msg (Some "Markdown")) rest.
Proof.
  vm_compute. eexists. split; [reflexivity|]. simpl. left. reflexivity.
Qed.

(** C4, as the code does it.  When the request (or the decoding of its
    answer) fails, nothing but the request happens and [last_update_id] is
    unchanged, so the next poll asks for the same offset.  When a non-empty
    batch arrives, [last_update_id] is set to its largest [update_id]
    immediately after the request, before any message is processed, and
    it still has that value when the call returns. *)
Theorem poll_offset_set_before_processing now bot_token get_file_info download pdf_text
    (get_updates : option Z -> exc (option (list tg_update))) (w : World) :
  let offset := updates_offset (last_update_id (st w)) in
  (forall e, get_updates offset = Raise e ->
     process_telegram_updates now bot_token get_file_info download pdf_text get_updates w =
     (mkWorld (st w) (trace w ++ [EGetUpdates offset]), Ret tt)) /\
  (forall u us, get_updates offset = Ret (Some (u :: us)) ->
     let w' := fst (process_telegram_updates now bot_token get_file_info download pdf_text
                      get_updates w) in
     (exists evs, trace w' =
        trace w ++ [EGetUpdates offset; ESetOffset (max_update_id u us)] ++ evs) /\
     last_update_id (st w') = Some (max_update_id u us)).
Proof.
  cbv zeta. split.
  - intros e He. unfold process_telegram_updates, py_try, py_bind, get_last_update_id,
      emit, py_lift, py_ret.
    cbn -[updates_offset]. by rewrite He.
  - intros u us Hu.
    unfold process_telegram_updates, py_try, py_bind, get_last_update_id,
      emit, py_lift, put_last_update_id, py_ret.
    cbn -[updates_offset for_each handle_update max_update_id]. rewrite Hu.
    cbn -[updates_offset for_each handle_update max_update_id].
    set (w1 := mkWorld _ _).
    destruct (handle_updates_grow now bot_token get_file_info download pdf_text
                (u :: us) w1) as [evs [Ht _]].
    pose proof (handle_updates_keep_offset now bot_token get_file_info download pdf_text
                  (Some (max_update_id u us)) (u :: us) w1 eq_refl) as Ho.
    destruct (for_each _ (u :: us) w1) as [w2 [r|e]]; simpl in *;
      (split; [exists evs; rewrite Ht; subst w1; simpl;
               by rewrite <- !app_assoc|exact Ho]).
Qed.

Lemma poll_offset_set_before_processing_witness :
  process_telegram_updates demo_now "TOKEN" (fun _ => Raise RequestException)
    (fun _ => Raise RequestException) (fun _ => None) (fun _ => Raise RequestException)
    demo_world = (mkWorld (st demo_world) [EGetUpdates None], Ret tt) /\
  last_update_id (st (fst (process_telegram_updates demo_now "TOKEN"
    (fun _ => Raise RequestException) (fun _ => Raise RequestException) (fun _ => None)
    demo_get_updates demo_world))) = Some 11.
Proof.
  split.
  - apply (proj1 (poll_offset_set_before_processing demo_now "TOKEN"
                    (fun _ => Raise RequestException) (fun _ => Raise RequestException)
                    (fun _ => None) (fun _ => Raise RequestException) demo_world)
                 RequestException).
    reflexivity.
  - apply (proj2 (poll_offset_set_before_processing demo_now "TOKEN"
                    (fun _ => Raise RequestException) (fun _ => Raise RequestException)
                    (fun _ => None) demo_get_updates demo_world)
                 (mkUpdate 10 (Some (mkMessage (Some 42) None (Some "/help"))))
                 [mkUpdate 11 (Some (mkMessage (Some 42) None (Some "/pause")))]).
    reflexivity.
Defined.

(** ** Posting ids *)

Lemma py_str_prefix_inj (p : string) (a b : Z) :
  p +:+ py_str a = p +:+ py_str b -> a = b.
Proof.
  induction p as [|c p IH]; simpl; intros H.
  - by apply (inj pretty).
  - injection H. exact IH.
Qed.

(** C3.  The posting id is [f"li_{hash(href)}"] or [f"indeed_{hash(href)}"].
    It is the same function of the link only for a fixed [hash].  When
    two processes hash the same link to different values (CPython's [str]
    hash is salted per process), they build postings with the same source
    and link but different ids. *)
Theorem posting_id_depends_on_process_hash (h1 h2 : string -> Z) :
  (forall card href j1 j2,
     card_href card "a" = Some href -> h1 href <> h2 href ->
     linkedin_job h1 card = Ret j1 -> linkedin_job h2 card = Ret j2 ->
     job_source j1 = job_source j2 /\ job_link j1 = job_link j2 /\
     job_id j1 <> job_id j2) /\
  (forall card href j1 j2,
     card_href card "h2 a" = Some href -> h1 href <> h2 href ->
     indeed_job h1 card = Ret j1 -> indeed_job h2 card = Ret j2 ->
     job_source j1 = job_source j2 /\ job_link j1 = job_link j2 /\
     job_id j1 <> job_id j2).
Proof.
  split; intros card href j1 j2 Hh Hne H1 H2.
  - unfold linkedin_job in H1, H2.
    destruct (card_text card "h3"); try discriminate; simpl in H1, H2.
    destruct (card_text card "h4"); try discriminate; simpl in H1, H2.
    destruct (card_text card ".job-search-card__location"); try discriminate;
      simpl in H1, H2.
    rewrite Hh in H1, H2. simpl in H1, H2.
    injection H1 as <-. injection H2 as <-. simpl.
    split; [done|split; [done|]]. intros E. apply Hne.
    exact (py_str_prefix_inj "li_" _ _ E).
  - unfold indeed_job in H1, H2. rewrite Hh in H1, H2. simpl in H1, H2.
    destruct (card_text card "h2 a"); try discriminate; simpl in H1, H2.
    destruct (card_text card ".companyName"); try discriminate; simpl in H1, H2.
    destruct (card_text card ".companyLocation"); try discriminate; simpl in H1, H2.
    injection H1 as <-. injection H2 as <-. simpl.
    split; [done|split; [done|]]. intros E. apply Hne.
    exact (py_str_prefix_inj "indeed_" _ _ E).
Qed.

Lemma posting_id_depends_on_process_hash_witness :
  "li_" +:+ py_str (demo_hash demo_href1) <>
  "li_" +:+ py_str (demo_hash_restarted demo_href1) /\
  "indeed_" +:+ py_str (demo_hash "/rc/clk?jk=7") <>
  "indeed_" +:+ py_str (demo_hash_restarted "/rc/clk?jk=7").
Proof.
  split.
  - exact (proj2 (proj2 (proj1 (posting_id_depends_on_process_hash demo_hash
             demo_hash_restarted)
             (demo_li_card "ML Engineer" "Acme" "Bengaluru" demo_href1) demo_href1
             _ _ eq_refl ltac:(unfold demo_hash_restarted; lia) eq_refl eq_refl))).
  - exact (proj2 (proj2 (proj2 (posting_id_depends_on_process_hash demo_hash
             demo_hash_restarted)
             (demo_indeed_card "Analyst" "Initech" "Pune" "/rc/clk?jk=7") "/rc/clk?jk=7"
             _ _ eq_refl ltac:(unfold demo_hash_restarted; lia) eq_refl eq_refl))).
Defined.

Lemma scrape_jobs_isolates_sources_witness :
  source_result demo_http_get (indeed_url "India") ".job_seen_beacon"
    (indeed_job demo_hash) ["ML Engineer"] = [] /\
  exists r, demo_http_get (linkedin_url "India" "ML+Engineer") = Ret r /\
    source_result demo_http_get (linkedin_url "India") ".base-card"
      (linkedin_job demo_hash) ["ML Engineer"] =
    parsed (linkedin_job demo_hash) (firstn 10 (select r ".base-card")).
Proof.
  pose proof (proj2 (proj2 (proj2 (scrape_jobs_isolates_sources demo_http_get demo_hash
                ["ML Engineer"] "India" demo_world)))) as H.
  split.
  - apply (proj1 (proj2 (H (indeed_url "India") ".job_seen_beacon" (indeed_job demo_hash)))
             "ML+Engineer" RequestException); reflexivity.
  - eexists. split; [reflexivity|].
    apply (proj2 (proj2 (H (linkedin_url "India") ".base-card" (linkedin_job demo_hash)))
             "ML+Engineer"); reflexivity.
Defined.

(* ------------------------------------------------------------------ *)
(** ** Further properties of the program *)

Lemma prefix_cases (p q s : string) :
  String.prefix p s = true -> String.prefix q s = true ->
  String.prefix p q = true \/ String.prefix q p = true.
Proof.
  revert q s. induction p as [|a p IH]; intros q s Hp Hq.
  { left. destruct q; reflexivity. }
  destruct s as [|b s]; [discriminate|]. destruct q as [|c q]; [by right|].
  simpl in *. destruct (ascii_dec a b); [|discriminate].
  destruct (ascii_dec c b); [|discriminate]. subst.
  destruct (ascii_dec b b); [|congruence]. eauto.
Qed.

Lemma startswith_excl (s p q : string) :
  startswith s p = true -> String.prefix p q = false -> String.prefix q p = false ->
  startswith s q = false.
Proof.
  unfold startswith. intros Hp H1 H2.
  destruct (String.prefix q s) eqn:Hq; [|done].
  destruct (prefix_cases p q s Hp Hq); congruence.
Qed.

(** A [Py] program that never raises. *)
Definition no_raise {A} (m : Py A) : Prop := forall w, exists a, snd (m w) = Ret a.

Lemma nr_ret {A} (a : A) : no_raise (py_ret a).
Proof. intros w. by exists a. Qed.
Lemma nr_emit e : no_raise (emit e).
Proof. intros w. by exists tt. Qed.
Lemma nr_get_users : no_raise get_users.
Proof. intros w. by eexists. Qed.
Lemma nr_save : no_raise save_users.
Proof. intros w. by exists tt. Qed.
Lemma nr_bind {A B} (m : Py A) (k : A -> Py B) :
  no_raise m -> (forall a, no_raise (k a)) -> no_raise (py_bind m k).
Proof.
  intros Hm Hk w. unfold py_bind. destruct (Hm w) as [a Ha].
  destruct (m w) as [w' [b|e]]; simpl in Ha; [|discriminate]. injection Ha as ->. apply Hk.
Qed.

Lemma nr_try {A} (m : Py A) (h : exn -> Py A) :
  (forall e, no_raise (h e)) -> no_raise (py_try m h).
Proof.
  intros Hh w. unfold py_try. destruct (m w) as [w' [a|e]]; [by exists a|apply Hh].
Qed.

Lemma nr_set_search_preferences now chat_id k l s t :
  no_raise (set_search_preferences now chat_id k l s t).
Proof.
  intros w. unfold set_search_preferences, when_some, user_update, save_users, py_bind,
    get_users, put_users, emit, py_ret, py_raise. simpl.
  destruct (users (st w) !! py_str chat_id) eqn:E; [|eexists; reflexivity].
  destruct k, l, s, t; repeat (progress (simpl; rewrite ?E, ?lookup_insert_eq));
    eexists; reflexivity.
Qed.

Lemma nr_set_resume now chat_id r : no_raise (set_resume now chat_id r).
Proof.
  intros w. unfold set_resume, user_update, save_users, py_bind, get_users,
    put_users, emit, py_ret, py_raise. simpl.
  destruct (users (st w) !! py_str chat_id) eqn:E; [|eexists; reflexivity].
  repeat (progress (simpl; rewrite ?E, ?lookup_insert_eq)); eexists; reflexivity.
Qed.

Lemma nr_register now chat_id : no_raise (register_user now chat_id).
Proof.
  intros w. unfold register_user, save_users, py_bind, get_users, put_users, emit, py_ret.
  simpl. destruct (users (st w) !! py_str chat_id); simpl; eexists; reflexivity.
Qed.

Lemma nr_set_active chat_id b r : no_raise (set_active chat_id b r).
Proof.
  intros w. unfold set_active, user_update, save_users, send_message, py_bind, get_users,
    put_users, emit, py_ret, py_raise. simpl.
  destruct (users (st w) !! py_str chat_id) eqn:E;
    repeat (progress (simpl; rewrite ?E, ?lookup_insert_eq)); eexists; reflexivity.
Qed.

Create HintDb nr_db.
#[export] Hint Resolve nr_ret nr_emit nr_get_users nr_save nr_set_search_preferences
  nr_set_resume nr_register nr_set_active : nr_db.

Ltac nr_step :=
  match goal with
  | |- no_raise (py_bind _ _) => apply nr_bind; [|intros ?]
  | |- no_raise (py_try _ _) => apply nr_try; intros ?
  | |- no_raise (if ?b then _ else _) => destruct b
  | |- no_raise (match ?x with _ => _ end) => destruct x
  | |- no_raise (let _ := _ in _) => cbv zeta
  | |- no_raise _ => solve [eauto with nr_db]
  | |- no_raise _ => progress unfold parse_command, preferences_command, keywords_command,
        location_command, score_command, time_command, ask_for_resume,
        ask_for_preferences, send_message, handle_document
  end.

Lemma nr_parse_command now text chat_id skip : no_raise (parse_command now text chat_id skip).
Proof. repeat nr_step. Qed.

Lemma nr_handle_document now bot_token get_file_info download pdf_text file_id chat_id :
  no_raise (handle_document now bot_token get_file_info download pdf_text file_id chat_id).
Proof. repeat nr_step. Qed.

Lemma nr_handle_update now bot_token get_file_info download pdf_text u :
  (forall m, update_message u = Some m -> is_Some (msg_chat_id m)) ->
  no_raise (handle_update now bot_token get_file_info download pdf_text u).
Proof.
  intros Hu. unfold handle_update. destruct (update_message u) as [m|]; [|apply nr_ret].
  destruct (Hu m eq_refl) as [c Hc]. rewrite Hc. simpl.
  apply nr_bind; [intros w; by exists c|intros c'].
  apply nr_bind; [apply nr_register|intros b].
  destruct (msg_document m); [apply nr_handle_document|].
  destruct (msg_text m); [|apply nr_ret].
  destruct (_ && _); apply nr_parse_command.
Qed.

Lemma handle_update_no_chat now bot_token get_file_info download pdf_text u m w :
  update_message u = Some m -> msg_chat_id m = None ->
  handle_update now bot_token get_file_info download pdf_text u w = (w, Raise KeyError).
Proof. intros Hu Hc. unfold handle_update. rewrite Hu, Hc. reflexivity. Qed.

Lemma for_each_app_nr {A} (f : A -> Py unit) (l1 l2 : list A) w :
  Forall (fun x => no_raise (f x)) l1 ->
  for_each f (l1 ++ l2) w = for_each f l2 (fst (for_each f l1 w)).
Proof.
  intros Hl. revert w. induction Hl as [|x l1 Hx Hl IH]; intros w; [done|].
  simpl. unfold py_bind. destruct (Hx w) as [a Ha].
  destruct (f x w) as [w' [b|e]]; simpl in Ha; [|discriminate]. apply IH.
Qed.

Lemma max_update_id_ge u us :
  Forall (fun v => update_id v <= max_update_id u us) (u :: us).
Proof.
  unfold max_update_id.
  assert (Hmono : forall l a, a <= fold_left (fun m x => Z.max m (update_id x)) l a).
  { induction l as [|x l IH]; intros a; simpl; [lia|]. etrans; [|apply IH]. lia. }
  assert (Hall : forall l a, Forall (fun v => update_id v <= fold_left
                    (fun m x => Z.max m (update_id x)) l a) l).
  { induction l as [|x l IH]; intros a; simpl; constructor; [|apply IH].
    etrans; [|apply Hmono]. lia. }
  constructor; [apply Hmono|apply Hall].
Qed.

(** What a poll does after the request, for a non-empty batch. *)
Lemma poll_nonempty now bot_token get_file_info download pdf_text
    (get_updates : option Z -> exc (option (list tg_update))) w b bs :
  let offset := updates_offset (last_update_id (st w)) in
  get_updates offset = Ret (Some (b :: bs)) ->
  let w1 := mkWorld (mkBotState (users (st w)) (users_db (st w))
                       (Some (max_update_id b bs)))
              ((trace w ++ [EGetUpdates offset]) ++ [ESetOffset (max_update_id b bs)]) in
  process_telegram_updates now bot_token get_file_info download pdf_text get_updates w =
  (fst (for_each (handle_update now bot_token get_file_info download pdf_text)
          (b :: bs) w1), Ret tt).
Proof.
  cbv zeta. intros Hu.
  unfold process_telegram_updates, py_try, py_bind, get_last_update_id,
    emit, py_lift, put_last_update_id, py_ret.
  cbn -[updates_offset for_each handle_update max_update_id]. rewrite Hu.
  cbn -[updates_offset for_each handle_update max_update_id].
  match goal with |- context [for_each ?f (b :: bs) ?w0] =>
    destruct (for_each f (b :: bs) w0) as [w2 [[]|e]] end; reflexivity.
Qed.

(** X1.  After a poll that received a non-empty batch, [last_update_id]
    is at least every [update_id] of the batch, and the next poll asks for
    the offset [last_update_id + 1], or for no offset when it is 0. *)
Theorem poll_next_offset_after_batch now bot_token get_file_info download pdf_text
    (get_updates : option Z -> exc (option (list tg_update))) w b bs :
  get_updates (updates_offset (last_update_id (st w))) = Ret (Some (b :: bs)) ->
  let m := max_update_id b bs in
  let w' := fst (process_telegram_updates now bot_token get_file_info download pdf_text
                   get_updates w) in
  last_update_id (st w') = Some m /\
  Forall (fun v => update_id v <= m) (b :: bs) /\
  updates_offset (last_update_id (st w')) = (if m =? 0 then None else Some (m + 1)).
Proof.
  intros Hu m w'. subst w'.
  rewrite (poll_nonempty now bot_token get_file_info download pdf_text get_updates w b bs Hu).
  cbn [fst].
  match goal with |- context [for_each ?f (b :: bs) ?w1] =>
    pose proof (handle_updates_keep_offset now bot_token get_file_info download pdf_text
                  (Some (max_update_id b bs)) (b :: bs) w1 eq_refl) as Ho end.
  unfold offset_is in Ho. rewrite Ho. split; [done|]. split; [apply max_update_id_ge|].
  reflexivity.
Qed.

Lemma poll_next_offset_after_batch_witness :
  let w' := fst (process_telegram_updates demo_now "TOKEN"
                   (fun _ => Raise RequestException) (fun _ => Raise RequestException)
                   (fun _ => None) demo_get_updates demo_world) in
  updates_offset (last_update_id (st w')) = Some 12.
Proof.
  exact (proj2 (proj2 (poll_next_offset_after_batch demo_now "TOKEN"
           (fun _ => Raise RequestException) (fun _ => Raise RequestException)
           (fun _ => None) demo_get_updates demo_world
           (mkUpdate 10 (Some (mkMessage (Some 42) None (Some "/help"))))
           [mkUpdate 11 (Some (mkMessage (Some 42) None (Some "/pause")))] eq_refl))).
Defined.

(** X2.  A message without a chat id stops the handling of its batch.
    The updates before it are handled, the ones after it are not, and the
    offset has already moved past all of them, so they are not fetched
    again; the poll itself returns normally. *)
Theorem poll_batch_stops_at_message_without_chat now bot_token get_file_info download
    pdf_text (get_updates : option Z -> exc (option (list tg_update))) w b bs
    us1 u us2 msg :
  let offset := updates_offset (last_update_id (st w)) in
  get_updates offset = Ret (Some (b :: bs)) ->
  b :: bs = us1 ++ u :: us2 ->
  Forall (fun v => forall m, update_message v = Some m -> is_Some (msg_chat_id m)) us1 ->
  update_message u = Some msg -> msg_chat_id msg = None ->
  let w1 := mkWorld (mkBotState (users (st w)) (users_db (st w))
                       (Some (max_update_id b bs)))
              ((trace w ++ [EGetUpdates offset]) ++ [ESetOffset (max_update_id b bs)]) in
  process_telegram_updates now bot_token get_file_info download pdf_text get_updates w =
  (fst (for_each (handle_update now bot_token get_file_info download pdf_text) us1 w1),
   Ret tt) /\
  Forall (fun v => update_id v <= max_update_id b bs) us2.
Proof.
  intros offset Hu Hsplit Hus1 Hm Hc w1. split.
  - rewrite (poll_nonempty now bot_token get_file_info download pdf_text get_updates
               w b bs Hu).
    fold offset. fold w1. rewrite Hsplit.
    rewrite (for_each_app_nr _ us1 (u :: us2) w1).
    2: { eapply Forall_impl; [exact Hus1|]. intros v Hv.
         by apply nr_handle_update. }
    simpl. unfold py_bind at 1.
    by rewrite (handle_update_no_chat now bot_token get_file_info download pdf_text u msg
                  _ Hm Hc).
  - pose proof (max_update_id_ge b bs) as Hge. rewrite Hsplit in Hge.
    apply Forall_app in Hge as [_ Hge]. by inversion Hge.
Qed.

Lemma poll_batch_stops_at_message_without_chat_witness :
  let r := process_telegram_updates demo_now "TOKEN"
             (fun _ => Raise RequestException) (fun _ => Raise RequestException)
             (fun _ => None) demo_get_updates_chatless demo_world in
  option_map is_active (user_42 (fst r)) = Some true /\
  last_update_id (st (fst r)) = Some 22.
Proof.
  cbv zeta.
  rewrite (proj1 (poll_batch_stops_at_message_without_chat demo_now "TOKEN"
             (fun _ => Raise RequestException) (fun _ => Raise RequestException)
             (fun _ => None) demo_get_updates_chatless demo_world
             (mkUpdate 20 (Some (mkMessage (Some 42) None (Some "/help"))))
             [mkUpdate 21 (Some (mkMessage None None (Some "hello")));
              mkUpdate 22 (Some (mkMessage (Some 42) None (Some "/pause")))]
             [mkUpdate 20 (Some (mkMessage (Some 42) None (Some "/help")))]
             (mkUpdate 21 (Some (mkMessage None None (Some "hello"))))
             [mkUpdate 22 (Some (mkMessage (Some 42) None (Some "/pause")))]
             (mkMessage None None (Some "hello"))
             eq_refl eq_refl
             ltac:(repeat constructor; intros m Hm; injection Hm as <-; by eexists)
             eq_refl eq_refl)).
  vm_compute. split; reflexivity.
Defined.

(** [m] leaves the bot state alone when [k] is not a key of [self.users]. *)
Definition quiet_for {A} (k : string) (m : Py A) : Prop :=
  forall w, users (st w) !! k = None -> st (fst (m w)) = st w.

Lemma qf_ret {A} k (a : A) : quiet_for k (py_ret a).
Proof. by intros w _. Qed.
Lemma qf_lift {A} k (m : exc A) : quiet_for k (py_lift m).
Proof. by intros w _. Qed.
Lemma qf_emit k e : quiet_for k (emit e).
Proof. by intros w _. Qed.
Lemma qf_get_users k : quiet_for k get_users.
Proof. by intros w _. Qed.
Lemma qf_bind {A B} k (m : Py A) (f : A -> Py B) :
  quiet_for k m -> (forall a, quiet_for k (f a)) -> quiet_for k (py_bind m f).
Proof.
  intros Hm Hf w Hw. unfold py_bind. specialize (Hm w Hw).
  destruct (m w) as [w' [a|e]]; simpl in *; [|done].
  rewrite <- Hm. apply Hf. by rewrite Hm.
Qed.

Lemma qf_try {A} k (m : Py A) (h : exn -> Py A) :
  quiet_for k m -> (forall e, quiet_for k (h e)) -> quiet_for k (py_try m h).
Proof.
  intros Hm Hh w Hw. unfold py_try. specialize (Hm w Hw).
  destruct (m w) as [w' [a|e]]; simpl in *; [done|].
  rewrite <- Hm. apply Hh. by rewrite Hm.
Qed.

Lemma qf_set_search_preferences now chat_id kw l s t :
  quiet_for (py_str chat_id) (set_search_preferences now chat_id kw l s t).
Proof.
  intros w Hw. unfold set_search_preferences, py_bind, get_users. simpl. by rewrite Hw.
Qed.

Lemma qf_set_active chat_id b r : quiet_for (py_str chat_id) (set_active chat_id b r).
Proof. intros w Hw. unfold set_active, py_bind, get_users. simpl. by rewrite Hw. Qed.

Create HintDb qf_db.
#[export] Hint Resolve qf_ret qf_lift qf_emit qf_get_users qf_set_search_preferences
  qf_set_active : qf_db.

Ltac qf_step :=
  match goal with
  | |- quiet_for _ (py_bind _ _) => apply qf_bind; [|intros ?]
  | |- quiet_for _ (py_try _ _) => apply qf_try; [|intros ?]
  | |- quiet_for _ (if ?b then _ else _) => destruct b
  | |- quiet_for _ (match ?x with _ => _ end) => destruct x
  | |- quiet_for _ (let _ := _ in _) => cbv zeta
  | |- quiet_for _ _ => solve [eauto with qf_db]
  | |- quiet_for _ _ => progress unfold preferences_command, keywords_command,
        location_command, score_command, time_command, ask_for_resume,
        ask_for_preferences, send_message
  end.

(** X3.  Every command other than [/start] from a chat that is not in
    [self.users] leaves the bot state (the users, the saved file, the
    offset) unchanged; the preference commands still send their success
    reply, e.g. [/location] with a non-empty place. *)
Theorem unknown_chat_commands_keep_state now text chat_id skip_welcome w :
  users (st w) !! py_str chat_id = None ->
  (startswith (strip text) "/start" = false ->
   st (fst (parse_command now text chat_id skip_welcome w)) = st w) /\
  (let location := strip (replace (strip text) "/location" "") in
   startswith (strip text) "/location" = true -> location <> "" ->
   parse_command now text chat_id skip_welcome w =
   (mkWorld (st w) (trace w ++
      [ESend chat_id ("✅ Job search location updated to: " +:+ location) None]),
    Ret tt)).
Proof.
  intros Hnone. split.
  - intros Hstart. unfold parse_command. cbv zeta. rewrite Hstart.
    revert w Hnone. change (quiet_for (py_str chat_id) (
      if startswith (strip text) "/help" then
        send_message chat_id help_msg (Some "Markdown")
      else if startswith (strip text) "/preferences" then preferences_command now (strip text) chat_id
      else if startswith (strip text) "/keywords" then keywords_command now (strip text) chat_id
      else if startswith (strip text) "/location" then location_command now (strip text) chat_id
      else if startswith (strip text) "/score" then score_command now (strip text) chat_id
      else if startswith (strip text) "/time" then time_command now (strip text) chat_id
      else if startswith (strip text) "/jobs" then
        send_message chat_id
          "🔍 Searching for jobs matching your profile... This may take a minute." None ;;;
        emit (ESpawn SendJobsToUser chat_id)
      else if startswith (strip text) "/analyze" then
        send_message chat_id "📋 Analyzing your resume... This may take a minute." None ;;;
        emit (ESpawn SendResumeAnalysis chat_id)
      else if startswith (strip text) "/pause" then
        set_active chat_id false "⏸️ Job notifications paused. Type /resume to restart."
      else if startswith (strip text) "/resume" then
        set_active chat_id true "▶️ Job notifications resumed!"
      else py_ret tt)).
    repeat qf_step.
  - cbv zeta. intros Hloc Hne. unfold parse_command.
    rewrite (startswith_excl _ _ "/start" Hloc eq_refl eq_refl),
      (startswith_excl _ _ "/help" Hloc eq_refl eq_refl),
      (startswith_excl _ _ "/preferences" Hloc eq_refl eq_refl),
      (startswith_excl _ _ "/keywords" Hloc eq_refl eq_refl), Hloc.
    unfold location_command. destruct (String.eqb _ "") eqn:E.
    + apply String.eqb_eq in E. congruence.
    + simpl. unfold set_search_preferences, get_users, py_bind. simpl. rewrite Hnone.
      reflexivity.
Qed.

Lemma unknown_chat_commands_keep_state_witness :
  st (fst (parse_command demo_now "/score 80" 7 false demo_world)) = st demo_world /\
  parse_command demo_now "/location Berlin" 7 false demo_world =
  (mkWorld (st demo_world)
     [ESend 7 ("✅ Job search location updated to: " +:+ "Berlin") None], Ret tt).
Proof.
  split.
  - exact (proj1 (unknown_chat_commands_keep_state demo_now "/score 80" 7 false demo_world
                    eq_refl) eq_refl).
  - exact (proj2 (unknown_chat_commands_keep_state demo_now "/location Berlin" 7 false
                    demo_world eq_refl) eq_refl ltac:(vm_compute; congruence)).
Defined.

(** X4.  A [/preferences] command that does not parse changes nothing.
    With fewer than four [|]-separated fields the bot re-sends the
    preferences prompt; when the third field is not an integer it sends
    the invalid-format reply. *)
Theorem preferences_malformed_keeps_state now text chat_id skip_welcome w :
  startswith (strip text) "/preferences" = true ->
  let parts := split_char "|" (strip (replace (strip text) "/preferences" "")) in
  ((length parts < 4)%nat ->
     parse_command now text chat_id skip_welcome w = ask_for_preferences chat_id w) /\
  (forall p2 e, (4 <= length parts)%nat -> parts !! 2%nat = Some p2 ->
     py_int (strip p2) = Raise e ->
     parse_command now text chat_id skip_welcome w =
     (mkWorld (st w) (trace w ++ [ESend chat_id invalid_preferences_msg None]), Ret tt)).
Proof.
  intros Hp parts.
  unfold parse_command. cbv zeta.
  rewrite (startswith_excl _ _ "/start" Hp eq_refl eq_refl),
    (startswith_excl _ _ "/help" Hp eq_refl eq_refl), Hp.
  unfold preferences_command. fold parts. clearbody parts. split.
  - intros Hlen. unfold py_try.
    destruct (4 <=? length parts)%nat eqn:E; [apply Nat.leb_le in E; lia|].
    reflexivity.
  - intros p2 e Hlen H2 Hint. unfold py_try.
    destruct parts as [|p0 [|p1 [|p2' [|p3 rest]]]]; simpl in Hlen; try lia.
    simpl in H2. injection H2 as <-.
    unfold py_bind, py_lift, py_index. cbn -[py_int strip]. rewrite Hint. reflexivity.
Qed.

Lemma preferences_malformed_keeps_state_witness :
  parse_command demo_now "/preferences AI | India | 70" 42 false demo_world =
    ask_for_preferences 42 demo_world /\
  parse_command demo_now "/preferences AI | India | seventy | 09:00" 42 false demo_world =
    (mkWorld (st demo_world) [ESend 42 invalid_preferences_msg None], Ret tt).
Proof.
  split.
  - exact (proj1 (preferences_malformed_keeps_state demo_now "/preferences AI | India | 70"
                    42 false demo_world eq_refl) ltac:(vm_compute; lia)).
  - exact (proj2 (preferences_malformed_keeps_state demo_now
                    "/preferences AI | India | seventy | 09:00" 42 false demo_world eq_refl)
             " seventy " ValueError ltac:(vm_compute; lia) eq_refl eq_refl).
Defined.

(** Resolve the [startswith] tests of [parse_command] from [H], a
    [startswith (strip text) p = true]. *)
Ltac dispatch H :=
  repeat match goal with
  | |- context [startswith ?s ?q] =>
      first [rewrite H | rewrite (startswith_excl s _ q H eq_refl eq_refl)]
  end; cbn iota beta.



(** X6.  [/jobs] replies that a search started and starts a job run,
    without touching the state.  For a chat that is unknown or paused,
    that job run then does nothing, so the "searching" reply is the only
    answer; for an active chat without a resume the run only asks for a
    resume. *)
Theorem jobs_command_unservable_chat now (scorer : Job -> string -> option MatchResult)
    http_get str_hash chat_id text skip_welcome w :
  startswith (strip text) "/jobs" = true ->
  let w1 := fst (parse_command now text chat_id skip_welcome w) in
  parse_command now text chat_id skip_welcome w = (w1, Ret tt) /\
  w1 = mkWorld (st w) (trace w ++ [ESend chat_id searching_msg None;
                                   ESpawn SendJobsToUser chat_id]) /\
  ((users (st w) !! py_str chat_id = None \/
    exists d, users (st w) !! py_str chat_id = Some d /\ is_active d = false) ->
   send_jobs_to_user_with http_get str_hash scorer chat_id w1 = (w1, Ret tt)) /\
  (forall d, users (st w) !! py_str chat_id = Some d -> is_active d = true ->
   resume d = "" ->
   send_jobs_to_user_with http_get str_hash scorer chat_id w1 =
   (mkWorld (st w1) (trace w1 ++ [ESend chat_id
      "🚀 Please send your resume (as a PDF) so I can match jobs for you!" None]), Ret tt)).
Proof.
  intros Hj w1.
  assert (E : parse_command now text chat_id skip_welcome w =
              (mkWorld (st w) (trace w ++ [ESend chat_id searching_msg None;
                                           ESpawn SendJobsToUser chat_id]), Ret tt)).
  { unfold parse_command. cbv zeta. dispatch Hj.
    unfold send_message, py_bind, emit. simpl. by rewrite <- app_assoc. }
  subst w1. rewrite E. simpl. split; [done|]. split; [done|]. split.
  - intros [Hn|[d [Hd Ha]]]; unfold send_jobs_to_user_with, py_bind, get_users; simpl.
    + by rewrite Hn.
    + by rewrite Hd, Ha.
  - intros d Hd Ha Hr. unfold send_jobs_to_user_with, py_bind, get_users; simpl.
    rewrite Hd, Ha, Hr. reflexivity.
Qed.

Lemma jobs_command_unservable_chat_witness :
  let w1 := fst (parse_command demo_now "/jobs" 7 false demo_world) in
  send_jobs_to_user demo_http_get demo_hash 7 w1 = (w1, Ret tt).
Proof.
  exact (proj1 (proj2 (proj2 (jobs_command_unservable_chat demo_now get_match_score
           demo_http_get demo_hash 7 "/jobs" false demo_world eq_refl)))
           (or_introl eq_refl)).
Defined.

(** The saved file holds what [self.users] holds. *)
Definition synced (w : World) : Prop := users_db (st w) = users (st w).

Lemma sync_emit e : preserves synced (emit e).
Proof. by intros w Hw. Qed.

Lemma sync_save : preserves synced save_users.
Proof. by intros w Hw. Qed.

Lemma sync_put_last o : preserves synced (put_last_update_id o).
Proof. by intros w Hw. Qed.

Lemma sync_register now chat_id : preserves synced (register_user now chat_id).
Proof.
  intros w Hw. unfold register_user, py_bind, get_users, put_users, save_users, emit.
  simpl. by destruct (users (st w) !! py_str chat_id).
Qed.

Lemma sync_set_resume now chat_id r : preserves synced (set_resume now chat_id r).
Proof.
  intros w Hw. unfold set_resume, user_update, py_bind, get_users, put_users,
    save_users, emit. cbv zeta.
  destruct (users (st w) !! py_str chat_id) eqn:E;
    repeat (progress (simpl; rewrite ?E, ?lookup_insert_eq)); done.
Qed.

Lemma sync_set_search_preferences now chat_id k l s t :
  preserves synced (set_search_preferences now chat_id k l s t).
Proof.
  intros w Hw. unfold set_search_preferences, when_some, user_update, py_bind,
    get_users, put_users, save_users, emit, py_ret. cbv zeta.
  destruct (users (st w) !! py_str chat_id) eqn:E; [|done].
  destruct k, l, s, t; repeat (progress (simpl; rewrite ?E, ?lookup_insert_eq)); done.
Qed.

Lemma sync_set_active chat_id b r : preserves synced (set_active chat_id b r).
Proof.
  intros w Hw. unfold set_active, user_update, py_bind, get_users, put_users,
    save_users, send_message, emit, py_ret. cbv zeta.
  destruct (users (st w) !! py_str chat_id) eqn:E;
    repeat (progress (simpl; rewrite ?E, ?lookup_insert_eq)); done.
Qed.

Create HintDb sync_db.
#[export] Hint Resolve pres_ret pres_raise pres_lift pres_get_users pres_get_last
  sync_emit sync_save sync_put_last sync_register sync_set_resume
  sync_set_search_preferences sync_set_active : sync_db.




(** The chat key [k] is in [self.users]. *)
Definition registered (k : string) (w : World) : Prop := is_Some (users (st w) !! k).

Global Instance registered_state_only k : StateOnly (registered k).
Proof. split; by intros. Qed.

Lemma reg_user_update k k' f : preserves (registered k) (user_update k' f).
Proof.
  intros w Hw. unfold user_update, py_bind, get_users, put_users. simpl.
  destruct (users (st w) !! k'); [|done]. unfold registered; simpl.
  destruct (decide (k' = k)) as [->|Hne].
  - by rewrite lookup_insert_eq.
  - by rewrite lookup_insert_ne.
Qed.

Lemma reg_register k now chat_id : preserves (registered k) (register_user now chat_id).
Proof.
  intros w Hw. unfold register_user, py_bind, get_users, put_users, save_users, emit.
  simpl. destruct (users (st w) !! py_str chat_id); [done|]. unfold registered; simpl.
  destruct (decide (py_str chat_id = k)) as [->|Hne].
  - by rewrite lookup_insert_eq.
  - by rewrite lookup_insert_ne.
Qed.

Lemma register_registers now chat_id w :
  registered (py_str chat_id) (fst (register_user now chat_id w)).
Proof.
  unfold register_user, py_bind, get_users, put_users, save_users, emit, registered.
  simpl. destruct (users (st w) !! py_str chat_id) eqn:E; simpl.
  - by rewrite E.
  - by rewrite lookup_insert_eq.
Qed.

Lemma reg_put_last k o : preserves (registered k) (put_last_update_id o).
Proof. by intros w Hw. Qed.

Create HintDb reg_db.
#[export] Hint Resolve pres_ret pres_raise pres_lift pres_emit pres_get_users
  pres_get_last pres_save reg_user_update reg_register reg_put_last : reg_db.

Ltac reg_step :=
  match goal with
  | |- preserves _ (py_bind _ _) => apply pres_bind; [|intros ?]
  | |- preserves _ (py_try _ _) => apply pres_try; [|intros ?]
  | |- preserves _ (for_each _ _) => apply pres_for_each; intros ?
  | |- preserves _ (if ?b then _ else _) => destruct b
  | |- preserves _ (match ?x with _ => _ end) => destruct x
  | |- preserves _ (let _ := _ in _) => cbv zeta
  | |- preserves _ _ => solve [eauto with reg_db]
  | |- preserves _ _ => progress pres_unfold
  end.

Lemma reg_deliver_loop k scorer chat_id chat_id_str jobs m :
  preserves (registered k) (deliver_loop scorer chat_id chat_id_str jobs m).
Proof.
  revert m. induction jobs as [|j js IH]; intros m; simpl; [apply pres_ret|].
  unfold user_lookup. repeat reg_step; apply IH.
Qed.

Lemma reg_parse_command k now text chat_id skip :
  preserves (registered k) (parse_command now text chat_id skip).
Proof. repeat reg_step. Qed.

Lemma reg_handle_document k now bot_token get_file_info download pdf_text file_id chat_id :
  preserves (registered k)
    (handle_document now bot_token get_file_info download pdf_text file_id chat_id).
Proof. repeat reg_step. Qed.

(** X8.  No operation of the bot ever removes a user from
    [self.users], even one that ends in an exception; and handling a
    Telegram message that carries a chat id leaves that chat registered. *)
Theorem users_never_removed now http_get str_hash bot_token get_file_info download pdf_text
    get_updates (o : op) (k : string) (w : World) :
  is_Some (users (st w) !! k) ->
  is_Some (users (st (fst (run_op now http_get str_hash bot_token get_file_info download
                               pdf_text get_updates o w))) !! k) /\
  (forall u m c, update_message u = Some m -> msg_chat_id m = Some c ->
   is_Some (users (st (fst (handle_update now bot_token get_file_info download pdf_text
                              u w))) !! py_str c)).
Proof.
  intros Hk. split.
  - revert w Hk. change (preserves (registered k) (run_op now http_get str_hash bot_token
      get_file_info download pdf_text get_updates o)).
    destruct o; repeat reg_step; apply reg_deliver_loop.
  - intros u m c Hu Hc. unfold handle_update. rewrite Hu, Hc. simpl.
    unfold py_bind. simpl. pose proof (register_registers now c w) as Hr.
    destruct (register_user now c w) as [w1 [b|e]]; simpl in *; [|done].
    destruct (msg_document m); [by apply reg_handle_document|].
    destruct (msg_text m); [|done].
    destruct (_ && _); by apply reg_parse_command.
Qed.

Lemma users_never_removed_witness :
  is_Some (users (st (fst (run_op demo_now demo_http_get demo_hash "TOKEN"
                             (fun _ => Raise RequestException)
                             (fun _ => Raise RequestException) (fun _ => None)
                             demo_get_updates (OpSendJobs 42) demo_world))) !! "42").
Proof.
  exact (proj1 (users_never_removed demo_now demo_http_get demo_hash "TOKEN"
           (fun _ => Raise RequestException) (fun _ => Raise RequestException)
           (fun _ => None) demo_get_updates (OpSendJobs 42) "42" demo_world
           ltac:(by eexists))).
Defined.

Lemma register_existing now chat_id w d :
  users (st w) !! py_str chat_id = Some d -> register_user now chat_id w = (w, Ret false).
Proof. intros E. unfold register_user, py_bind, get_users. simpl. by rewrite E. Qed.

Lemma register_new now chat_id w :
  users (st w) !! py_str chat_id = None ->
  register_user now chat_id w =
  (mkWorld (mkBotState (<[py_str chat_id := new_user_record now]> (users (st w)))
                       (<[py_str chat_id := new_user_record now]> (users (st w)))
                       (last_update_id (st w)))
           (trace w ++ [ESave]), Ret true).
Proof. intros E. unfold register_user, py_bind, get_users. simpl. by rewrite E. Qed.

Lemma parse_start now text chat_id skip w d :
  startswith (strip text) "/start" = true ->
  users (st w) !! py_str chat_id = Some d ->
  parse_command now text chat_id skip w =
  (if negb skip && String.eqb (strip text) "/start"
   then mkWorld (st w) (trace w ++ [ESend chat_id welcome_msg None;
                                    ESend chat_id resume_request_msg None])
   else w, Ret tt).
Proof.
  intros Hs E. unfold parse_command. cbv zeta. rewrite Hs.
  unfold py_bind. rewrite (register_existing now chat_id w d E). simpl.
  destruct (negb skip && String.eqb (strip text) "/start"); [|done].
  unfold send_message, ask_for_resume, send_message, emit, py_bind. simpl.
  by rewrite <- app_assoc.
Qed.

(** X9.  A text message whose stripped text starts with [/start]
    registers its chat, and the welcome and the resume request are sent
    exactly when the stripped text is [/start] itself and either the chat
    was new or the raw text does not start with [/start] (leading blanks):
    a new chat that sends ["/start now"] gets no welcome, a known chat
    that sends [" /start"] gets one again. *)
Theorem telegram_start_welcome now bot_token get_file_info download pdf_text
    u m chat_id text w :
  update_message u = Some m -> msg_chat_id m = Some chat_id ->
  msg_document m = None -> msg_text m = Some text ->
  startswith (strip text) "/start" = true ->
  let fresh := bool_decide (users (st w) !! py_str chat_id = None) in
  let w1 := fst (register_user now chat_id w) in
  handle_update now bot_token get_file_info download pdf_text u w =
  (if String.eqb (strip text) "/start" && (fresh || negb (startswith text "/start"))
   then mkWorld (st w1) (trace w1 ++ [ESend chat_id welcome_msg None;
                                      ESend chat_id resume_request_msg None])
   else w1, Ret tt).
Proof.
  intros Hu Hc Hd Ht Hs fresh w1. subst fresh w1.
  unfold handle_update. rewrite Hu, Hc. unfold py_bind. simpl.
  destruct (users (st w) !! py_str chat_id) as [d|] eqn:E.
  - rewrite (register_existing now chat_id w d E). simpl. rewrite Hd, Ht.
    rewrite andb_true_r.
    destruct (startswith text "/start"); simpl;
      rewrite (parse_start now text chat_id _ w d Hs E); simpl;
      by destruct (String.eqb (strip text) "/start").
  - rewrite (register_new now chat_id w E). simpl. rewrite Hd, Ht.
    rewrite andb_false_r. simpl.
    rewrite (parse_start now text chat_id false _ (new_user_record now) Hs)
      by (simpl; apply lookup_insert_eq).
    simpl. by rewrite andb_true_r.
Qed.

Lemma telegram_start_welcome_witness :
  handle_update demo_now "TOKEN" (fun _ => Raise RequestException)
    (fun _ => Raise RequestException) (fun _ => None) (demo_start_update "/start now")
    demo_world = (fst (register_user demo_now 7 demo_world), Ret tt).
Proof.
  exact (telegram_start_welcome demo_now "TOKEN" (fun _ => Raise RequestException)
           (fun _ => Raise RequestException) (fun _ => None) (demo_start_update "/start now")
           (mkMessage (Some 7) None (Some "/start now")) 7 "/start now" demo_world
           eq_refl eq_refl eq_refl eq_refl eq_refl).
Defined.

(** X10.  [scrape_jobs] searches with the first keyword only: the
    requests it makes and the postings it returns do not depend on the
    other keywords.  With no keyword at all, [keywords[0]] raises inside
    both [try] blocks, so it makes no request and returns no posting. *)
Theorem scrape_jobs_first_keyword_only http_get str_hash k ks ks' location w :
  scrape_jobs http_get str_hash (k :: ks) location w =
  scrape_jobs http_get str_hash (k :: ks') location w /\
  scrape_jobs http_get str_hash [] location w =
  (mkWorld (st w) (trace w ++ [ESleepRandom]), Ret []).
Proof.
  split; unfold scrape_jobs, source_block, keywords_str, py_index; reflexivity.
Qed.

Lemma split_char_nonempty sep s : split_char sep s <> [].
Proof.
  induction s as [|c r IH]; simpl; [done|].
  destruct (split_char sep r); [done|]. by destruct (Ascii.eqb c sep).
Qed.

Lemma deliver_loop_pres_inv (Q : UserData -> Prop) scorer chat_id chat_id_str jobs m :
  (forall d l, Q d -> Q (set_jobs_sent_field l d)) ->
  preserves (store_inv Q) (deliver_loop scorer chat_id chat_id_str jobs m).
Proof.
  intros HQ. revert m. induction jobs as [|j js IH]; intros m; simpl; [apply pres_ret|].
  unfold user_lookup. repeat pres_step; try apply IH. by apply HQ.
Qed.

(** X11.  Every user keeps a non-empty [search_keywords] list (so that
    [keywords[0]] in [scrape_jobs] finds a keyword) through every
    operation of the bot, except a direct [set_search_preferences] call
    given an empty keyword list: new users get ["AI Engineer"], and
    [/keywords] and [/preferences] always store a non-empty list. *)
Theorem keywords_never_emptied now http_get str_hash bot_token get_file_info download
    pdf_text get_updates (o : op) (w : World) :
  (forall c l s t, o <> OpSetPreferences c (Some []) l s t) ->
  store_inv (fun d => search_keywords d <> []) w ->
  store_inv (fun d => search_keywords d <> [])
    (fst (run_op now http_get str_hash bot_token get_file_info download pdf_text
            get_updates o w)).
Proof.
  intros Ho. revert w.
  change (preserves (store_inv (fun d => search_keywords d <> []))
            (run_op now http_get str_hash bot_token get_file_info download pdf_text
               get_updates o)).
  destruct o; repeat pres_step; try (apply deliver_loop_pres_inv; by intros);
    simpl in *; try done;
    try (rewrite <- length_zero_iff_nil, length_map, length_zero_iff_nil;
         apply split_char_nonempty).
  intros ->. by eapply Ho.
Qed.

Lemma keywords_never_emptied_witness :
  store_inv (fun d => search_keywords d <> [])
    (fst (run_op demo_now demo_http_get demo_hash "TOKEN"
            (fun _ => Raise RequestException) (fun _ => Raise RequestException)
            (fun _ => None) demo_get_updates
            (OpCommand "/preferences  | India | 70 | 09:00" 42 false) demo_world)).
Proof.
  apply (keywords_never_emptied demo_now demo_http_get demo_hash "TOKEN"
           (fun _ => Raise RequestException) (fun _ => Raise RequestException)
           (fun _ => None) demo_get_updates
           (OpCommand "/preferences  | India | 70 | 09:00" 42 false) demo_world).
  - intros c l s t H. discriminate H.
  - unfold store_inv. simpl. apply map_Forall_singleton. simpl. discriminate.
Defined.





(** X14.  [send_resume_analysis] never changes the store.  For an
    unknown chat it does nothing and for a chat without a resume it only
    asks for one, returning [None] in both cases.  Otherwise it sends the
    "analyzing" notice and the suggestions the model gave for the resume
    and keywords (the fixed error text if that call raised), and, whatever
    the model answers, returns the score 50 with the analysis
    ["Error in analysis"]: its scoring block reads the undefined name
    [prompt]. *)
Theorem resume_analysis_fixed_score chat_completion chat_id w :
  let k := py_str chat_id in
  (users (st w) !! k = None ->
   send_resume_analysis chat_completion chat_id w = (w, Ret None)) /\
  (forall d, users (st w) !! k = Some d -> resume d = "" ->
   send_resume_analysis chat_completion chat_id w =
   (mkWorld (st w) (trace w ++ [ESend chat_id resume_request_msg None]), Ret None)) /\
  (forall d, users (st w) !! k = Some d -> resume d <> "" ->
   let suggestions :=
     match chat_completion (improvement_prompt (resume d) (search_keywords d)) "0.3" with
     | Ret content => content
     | Raise _ => improvement_error_msg
     end in
   send_resume_analysis chat_completion chat_id w =
   (mkWorld (st w) (trace w ++
      [ESend chat_id "🔍 Analyzing your resume... This may take a minute." None;
       ESend chat_id (analysis_message suggestions) (Some "Markdown")]),
    Ret (Some (mkMatchResult 50 "Error in analysis")))).
Proof.
  intros k. subst k. split; [|split].
  - intros E. unfold send_resume_analysis, py_bind, get_users. simpl. by rewrite E.
  - intros d E Hr. unfold send_resume_analysis, py_bind, get_users. simpl.
    rewrite E, Hr. reflexivity.
  - intros d E Hr suggestions. unfold send_resume_analysis, py_bind, get_users. simpl.
    rewrite E. apply String.eqb_neq in Hr. rewrite Hr.
    unfold send_message, emit, analysis_scoring_block, py_try, py_bind, py_lift. simpl.
    by rewrite <- app_assoc.
Qed.

Lemma resume_analysis_fixed_score_witness :
  send_resume_analysis (fun _ _ => Ret "Score: 90") 42 demo_world =
  (mkWorld (st demo_world)
     [ESend 42 "🔍 Analyzing your resume... This may take a minute." None;
      ESend 42 (analysis_message "Score: 90") (Some "Markdown")],
   Ret (Some (mkMatchResult 50 "Error in analysis"))).
Proof.
  exact (proj2 (proj2 (resume_analysis_fixed_score (fun _ _ => Ret "Score: 90") 42
           demo_world)) demo_user eq_refl ltac:(discriminate)).
Defined.

Lemma fst_filter_sublist {B} (p : B -> bool) (l : list (string * B)) :
  sublist (List.filter (fun kd => p kd.2) l).*1 l.*1.
Proof.
  induction l as [|[k d] l IH]; simpl; [done|].
  destruct (p d); simpl; [by apply sublist_skip|by apply sublist_cons].
Qed.

Lemma elem_of_fst_filter {B} (p : B -> bool) (l : list (string * B)) k :
  k ∈ (List.filter (fun kd => p kd.2) l).*1 <-> exists d, (k, d) ∈ l /\ p d = true.
Proof.
  rewrite list_elem_of_fmap. split.
  - intros [[k' d] [-> Hin]]. apply list_elem_of_In, filter_In in Hin as [Hin Hp].
    exists d. split; [by apply list_elem_of_In|done].
  - intros [d [Hin Hp]]. exists (k, d). split; [done|].
    apply list_elem_of_In, filter_In. split; [by apply list_elem_of_In|done].
Qed.

(** X15.  [send_jobs_to_all_users] starts one job-run thread for each
    active user and for no one else, never twice for the same chat, and
    sleeps 2 seconds after each start. *)
Theorem all_users_run_once_each (us : gmap string UserData) :
  exists ks : list string,
  NoDup ks /\
  (forall k, k ∈ ks <-> exists d, us !! k = Some d /\ is_active d = true) /\
  send_jobs_to_all_users us = flat_map (fun k => [RSpawnSendJobs k; RSleep 2]) ks.
Proof.
  exists (List.filter (fun kd => is_active kd.2) (map_to_list us)).*1.
  split; [|split].
  - eapply sublist_NoDup; [apply (NoDup_fst_map_to_list us)|apply fst_filter_sublist].
  - intros k. rewrite elem_of_fst_filter. setoid_rewrite elem_of_map_to_list. done.
  - unfold send_jobs_to_all_users. induction (map_to_list us) as [|[k d] l IH];
      simpl; [done|]. destruct (is_active d); simpl; by rewrite IH.
Qed.

Lemma group_add_keys t c (g : list (string * list string)) x :
  x ∈ (group_add t c g).*1 <-> x = t \/ x ∈ g.*1.
Proof.
  induction g as [|[t' cs] g IH]; simpl.
  - rewrite list_elem_of_singleton. set_solver.
  - destruct (String.eqb t t') eqn:E; simpl.
    + apply String.eqb_eq in E as ->. set_solver.
    + rewrite !elem_of_cons, IH. tauto.
Qed.

Lemma group_add_nodup t c (g : list (string * list string)) :
  NoDup g.*1 -> NoDup (group_add t c g).*1.
Proof.
  induction g as [|[t' cs] g IH]; simpl; intros Hg.
  - apply NoDup_singleton.
  - apply NoDup_cons in Hg as [Hn Hg].
    destruct (String.eqb t t') eqn:E; simpl; apply NoDup_cons; split; auto.
    apply String.eqb_neq in E. rewrite group_add_keys. intros [->|?]; auto.
Qed.

Lemma fold_groups_spec (l : list (string * UserData)) g :
  (forall x, x ∈ (fold_left (fun groups '(chat_id, user) =>
                      if is_active user then group_add (notification_time user) chat_id groups
                      else groups) l g).*1 <->
             x ∈ g.*1 \/ exists k d, (k, d) ∈ l /\ is_active d = true /\
                                     notification_time d = x) /\
  (NoDup g.*1 -> NoDup (fold_left (fun groups '(chat_id, user) =>
                      if is_active user then group_add (notification_time user) chat_id groups
                      else groups) l g).*1).
Proof.
  revert g. induction l as [|[k d] l IH]; intros g; simpl.
  - split; [|done]. intros x. split; [by left|]. intros [?|(k&d&Hin&_)]; [done|].
    by apply elem_of_nil in Hin.
  - destruct (IH (if is_active d then group_add (notification_time d) k g else g))
      as [Hk Hn]. split.
    + intros x. rewrite Hk. setoid_rewrite elem_of_cons.
      destruct (is_active d) eqn:Ha; [rewrite group_add_keys|]; split.
      * intros [[->|?]|(k'&d'&?&?&?)]; [right; by exists k, d; auto|by left|].
        right. exists k', d'. auto.
      * intros [?|(k'&d'&[Heq|?]&?&?)]; [by left; right| |by right; exists k', d'].
        injection Heq as -> ->. by left; left.
      * intros [?|(k'&d'&?&?&?)]; [by left|right; exists k', d'; auto].
      * intros [?|(k'&d'&[Heq|?]&?&?)]; [by left| |by right; exists k', d'].
        injection Heq as -> ->. congruence.
    + intros Hg. apply Hn. destruct (is_active d); [by apply group_add_nodup|done].
Qed.

Lemma time_groups_spec (us : gmap string UserData) :
  NoDup (time_groups us).*1 /\
  forall t, t ∈ (time_groups us).*1 <->
            exists k d, us !! k = Some d /\ is_active d = true /\ notification_time d = t.
Proof.
  destruct (fold_groups_spec (map_to_list us) []) as [Hk Hn]. split.
  - apply Hn, NoDup_nil_2.
  - intros t. unfold time_groups. rewrite Hk. setoid_rewrite elem_of_map_to_list.
    split; [intros [Hin|?]; [by apply elem_of_nil in Hin|done]|by right].
Qed.

Lemma install_daily_all_ok at_ok groups jobs :
  (forall t, t ∈ groups.*1 -> at_ok t = true) ->
  install_daily at_ok groups jobs =
  (jobs ++ map (fun t => mkSchedJob (DailyAt t) SendJobsToAllUsers) groups.*1, SchedOk).
Proof.
  revert jobs. induction groups as [|[t cs] gs IH]; intros jobs Hok; simpl.
  - by rewrite app_nil_r.
  - rewrite Hok by (apply elem_of_cons; by left).
    rewrite IH by (intros t' Ht'; apply Hok, elem_of_cons; by right).
    by rewrite <- app_assoc.
Qed.

Lemma install_daily_rejected at_ok groups jobs :
  (exists t, t ∈ groups.*1 /\ at_ok t = false) ->
  Forall (fun j => sched_call j <> ScheduleUserJobs) jobs ->
  exists jobs' t', install_daily at_ok groups jobs = (jobs', SchedRaised t') /\
                   Forall (fun j => sched_call j <> ScheduleUserJobs) jobs'.
Proof.
  revert jobs. induction groups as [|[t cs] gs IH]; intros jobs [t0 [Ht0 Hbad]] Hj; simpl.
  - by apply elem_of_nil in Ht0.
  - destruct (at_ok t) eqn:Ht.
    + apply IH.
      * simpl in Ht0. apply elem_of_cons in Ht0 as [->|Ht0]; [congruence|by exists t0].
      * apply Forall_app. split; [done|]. apply Forall_singleton. simpl. discriminate.
    + by exists jobs, t.
Qed.

(** X16.  When the [schedule] library accepts every notification time
    of an active user and ["00:01"], [schedule_user_jobs] installs the
    15-minute health check, then exactly one daily job per distinct
    notification time of an active user (paused users' times get none),
    then the daily rescheduling at 00:01. *)
Theorem schedule_one_job_per_time at_ok (us : gmap string UserData) :
  exists ts : list string,
  NoDup ts /\
  (forall t, t ∈ ts <-> exists k d, us !! k = Some d /\ is_active d = true /\
                                    notification_time d = t) /\
  ((forall t, t ∈ ts -> at_ok t = true) -> at_ok "00:01" = true ->
   schedule_user_jobs at_ok us =
   (mkSchedJob Every15Minutes HealthCheck ::
    map (fun t => mkSchedJob (DailyAt t) SendJobsToAllUsers) ts ++
    [mkSchedJob (DailyAt "00:01") ScheduleUserJobs], SchedOk)).
Proof.
  destruct (time_groups_spec us) as [Hn Hk].
  exists (time_groups us).*1. split; [done|]. split; [done|].
  intros Hok H01. unfold schedule_user_jobs. rewrite install_daily_all_ok by done.
  rewrite H01. reflexivity.
Qed.

(** X17.  When the [schedule] library rejects the notification time of
    some active user, [schedule_user_jobs] ends in an exception, and the
    daily 00:01 job that calls [schedule_user_jobs] again is not
    installed. *)
Theorem schedule_rejected_time_drops_rescheduling at_ok (us : gmap string UserData) k d :
  us !! k = Some d -> is_active d = true -> at_ok (notification_time d) = false ->
  exists jobs t, schedule_user_jobs at_ok us = (jobs, SchedRaised t) /\
                 Forall (fun j => sched_call j <> ScheduleUserJobs) jobs.
Proof.
  intros Hk Ha Hbad. destruct (time_groups_spec us) as [_ Hg].
  destruct (install_daily_rejected at_ok (time_groups us)
              [mkSchedJob Every15Minutes HealthCheck]) as (jobs & t & Hi & Hj).
  - exists (notification_time d). split; [|done]. apply Hg. by exists k, d.
  - apply Forall_singleton. simpl. discriminate.
  - exists jobs, t. unfold schedule_user_jobs. by rewrite Hi.
Qed.

Lemma schedule_one_job_per_time_witness :
  schedule_user_jobs demo_at_ok {["42" := demo_user]} =
  ([mkSchedJob Every15Minutes HealthCheck;
    mkSchedJob (DailyAt "09:00") SendJobsToAllUsers;
    mkSchedJob (DailyAt "00:01") ScheduleUserJobs], SchedOk).
Proof.
  destruct (schedule_one_job_per_time demo_at_ok {["42" := demo_user]})
    as (ts & Hn & Hk & Hs).
  assert (Hts : forall t, t ∈ ts <-> t = "09:00").
  { intros t. rewrite Hk. split.
    - intros (k & d & Hkd & _ & <-). apply lookup_singleton_Some in Hkd as [_ <-].
      reflexivity.
    - intros ->. exists "42", demo_user. split; [apply lookup_singleton_eq|done]. }
  assert (E : ts = ["09:00"]).
  { destruct ts as [|a [|b l]].
    - exfalso. apply (elem_of_nil "09:00"). by apply Hts.
    - f_equal. apply Hts. apply elem_of_cons. by left.
    - exfalso. apply NoDup_cons in Hn as [Hn _]. apply Hn.
      apply elem_of_cons. left.
      rewrite (proj1 (Hts a)), (proj1 (Hts b)); [done| |];
        apply elem_of_cons; [right; apply elem_of_cons|]; by left. }
  rewrite Hs; [by rewrite E| |reflexivity].
  intros t Ht. apply Hts in Ht as ->. reflexivity.
Defined.

Lemma schedule_rejected_time_drops_rescheduling_witness :
  exists jobs t,
  schedule_user_jobs demo_at_ok {["42" := set_time_field "25:00" demo_user]} =
  (jobs, SchedRaised t) /\ Forall (fun j => sched_call j <> ScheduleUserJobs) jobs.
Proof.
  exact (schedule_rejected_time_drops_rescheduling demo_at_ok
           {["42" := set_time_field "25:00" demo_user]} "42"
           (set_time_field "25:00" demo_user) eq_refl eq_refl eq_refl).
Defined.

(** [pres_step], keeping the tested condition of each [if]. *)
Ltac pres_step_eqn :=
  match goal with
  | |- preserves _ (if ?b then _ else _) => destruct b eqn:?
  | |- _ => pres_step
  end.

(** X18.  Every user's [min_match_score] stays between 0 and 100
    through every operation except [/preferences] (which stores any
    integer), a direct [set_search_preferences] call given an
    out-of-range score, and a poll (which may carry a [/preferences]):
    new users get 70 and [/score] stores only values from 0 to 100. *)
Theorem min_score_range_kept now http_get str_hash bot_token get_file_info download
    pdf_text get_updates (o : op) (w : World) :
  (forall t c s, o = OpCommand t c s -> startswith (strip t) "/preferences" = false) ->
  (forall c k l n t, o = OpSetPreferences c k l (Some n) t -> 0 <= n <= 100) ->
  o <> OpPoll ->
  store_inv (fun d => 0 <= min_match_score d <= 100) w ->
  store_inv (fun d => 0 <= min_match_score d <= 100)
    (fst (run_op now http_get str_hash bot_token get_file_info download pdf_text
            get_updates o w)).
Proof.
  intros Hc Hs Hp. revert w.
  change (preserves (store_inv (fun d => 0 <= min_match_score d <= 100))
            (run_op now http_get str_hash bot_token get_file_info download pdf_text
               get_updates o)).
  destruct o as [c|c r|c k l s t|t c sk|f c|c|]; try done.
  - repeat pres_step; simpl; lia.
  - repeat pres_step; simpl; done.
  - repeat pres_step; simpl; try done. eapply Hs. reflexivity.
  - specialize (Hc t c sk eq_refl). unfold run_op, parse_command. cbv zeta.
    rewrite Hc. repeat pres_step_eqn; simpl in *; try done; lia.
  - repeat pres_step; simpl; done.
  - repeat pres_step; try (apply deliver_loop_pres_inv; by intros).
Qed.

Lemma min_score_range_kept_witness :
  store_inv (fun d => 0 <= min_match_score d <= 100)
    (fst (run_op demo_now demo_http_get demo_hash "TOKEN"
            (fun _ => Raise RequestException) (fun _ => Raise RequestException)
            (fun _ => None) demo_get_updates (OpCommand "/score 150" 42 false) demo_world)).
Proof.
  apply (min_score_range_kept demo_now demo_http_get demo_hash "TOKEN"
           (fun _ => Raise RequestException) (fun _ => Raise RequestException)
           (fun _ => None) demo_get_updates (OpCommand "/score 150" 42 false) demo_world).
  - intros t c s H. injection H as <- <- <-. reflexivity.
  - intros c k l n t H. discriminate H.
  - discriminate.
  - unfold store_inv. simpl. apply map_Forall_singleton. simpl. lia.
Defined.

(** X19.  A poll never raises, so the main loop of [run] never takes
    its error path because of one.  When [getUpdates] fails, or answers
    without a ["result"] or with an empty one, the poll changes nothing
    but recording the request: [last_update_id] is kept and the next poll
    asks for the same offset again. *)
Theorem poll_never_raises_failure_retries now bot_token get_file_info download pdf_text
    (get_updates : option Z -> exc (option (list tg_update))) w :
  let offset := updates_offset (last_update_id (st w)) in
  snd (process_telegram_updates now bot_token get_file_info download pdf_text
         get_updates w) = Ret tt /\
  ((exists e, get_updates offset = Raise e) \/ get_updates offset = Ret None \/
   get_updates offset = Ret (Some []) ->
   process_telegram_updates now bot_token get_file_info download pdf_text get_updates w =
   (mkWorld (st w) (trace w ++ [EGetUpdates offset]), Ret tt)).
Proof.
  intros offset. subst offset. split.
  - unfold process_telegram_updates, py_try, py_bind, get_last_update_id,
      emit, py_lift, put_last_update_id, py_ret.
    cbn -[updates_offset for_each handle_update max_update_id].
    destruct (get_updates (updates_offset (last_update_id (st w)))) as [[[|b bs]|]|e];
      cbn -[updates_offset for_each handle_update max_update_id]; try done.
    match goal with |- context [for_each ?f (b :: bs) ?w0] =>
      destruct (for_each f (b :: bs) w0) as [w2 [[]|e]] end; reflexivity.
  - intros Hf. unfold process_telegram_updates, py_try, py_bind, get_last_update_id,
      emit, py_lift, py_ret.
    cbn -[updates_offset for_each handle_update max_update_id].
    destruct Hf as [[e ->]|[->| ->]]; reflexivity.
Qed.

Lemma poll_never_raises_failure_retries_witness :
  process_telegram_updates demo_now "TOKEN" (fun _ => Raise RequestException)
    (fun _ => Raise RequestException) (fun _ => None)
    (fun _ => Raise RequestException) demo_world =
  (mkWorld (st demo_world) [EGetUpdates None], Ret tt).
Proof.
  exact (proj2 (poll_never_raises_failure_retries demo_now "TOKEN"
           (fun _ => Raise RequestException) (fun _ => Raise RequestException)
           (fun _ => None) (fun _ => Raise RequestException) demo_world)
           (or_introl (ex_intro _ RequestException eq_refl))).
Defined.

Lemma substring_0_idem n s : substring 0 n (substring 0 n s) = substring 0 n s.
Proof.
  revert s. induction n as [|n IH]; intros [|c s]; simpl; try reflexivity.
  by rewrite IH.
Qed.

(** X20.  The resume suggestions depend on the first 3000 characters
    of the resume only: a resume and its first 3000 characters get the
    same prompt, hence the same answer, whatever the model does. *)
Theorem suggestions_see_first_3000_chars chat_completion resume_text job_keywords :
  get_resume_improvement_suggestions chat_completion resume_text job_keywords =
  get_resume_improvement_suggestions chat_completion (substring 0 3000 resume_text)
    job_keywords.
Proof.
  unfold get_resume_improvement_suggestions, improvement_prompt.
  by rewrite substring_0_idem.
Qed.



(** X22.  A text whose stripped form starts with none of the prefixes
    [parse_command] tests is ignored: no reply, no change to the bot.
    This includes [/status], which the [/help] text lists, and
    [/extract]. *)
Theorem unhandled_text_ignored now text chat_id skip_welcome w :
  Forall (fun p => startswith (strip text) p = false) command_prefixes ->
  parse_command now text chat_id skip_welcome w = (w, Ret tt).
Proof.
  intros H. unfold command_prefixes in H.
  repeat match goal with H : Forall _ (_ :: _) |- _ => apply Forall_cons in H as [? H] end.
  unfold parse_command. cbv zeta.
  repeat match goal with E : startswith _ _ = false |- _ => rewrite E; clear E end.
  reflexivity.
Qed.

Lemma unhandled_text_ignored_witness :
  parse_command demo_now "/status" 42 false demo_world = (demo_world, Ret tt).
Proof.
  apply unhandled_text_ignored. unfold command_prefixes.
  repeat constructor.
Defined.

(** X23.  A job run for an active user with a resume but an empty
    keyword list makes no request and only answers that no new job
    matches were found, leaving the store as it was; the same answer
    comes when both job sites fail, after one request to each. *)
Theorem job_run_without_postings scorer http_get str_hash chat_id w d :
  users (st w) !! py_str chat_id = Some d -> is_active d = true -> resume d <> "" ->
  (search_keywords d = [] ->
   send_jobs_to_user_with http_get str_hash scorer chat_id w =
   (mkWorld (st w) (trace w ++ [ESleepRandom; ESend chat_id no_new_jobs_msg None]),
    Ret tt)) /\
  (forall k ks, search_keywords d = k :: ks -> (forall url, exists e, http_get url = Raise e) ->
   let kw := join "+" (split_ws (replace k "," " ")) in
   send_jobs_to_user_with http_get str_hash scorer chat_id w =
   (mkWorld (st w) (trace w ++ [ESleepRandom;
                                EHttpGet (linkedin_url (search_location d) kw);
                                EHttpGet (indeed_url (search_location d) kw);
                                ESend chat_id no_new_jobs_msg None]), Ret tt)).
Proof.
  intros Hd Ha Hr. apply String.eqb_neq in Hr. split.
  - intros Hk. unfold send_jobs_to_user_with, py_bind, get_users. simpl.
    rewrite Hd, Ha, Hr, Hk. simpl.
    unfold scrape_jobs, source_block, keywords_str, py_index, py_try, py_bind, py_lift,
      emit, send_message, py_ret. simpl. unfold emit. simpl. by rewrite <- app_assoc.
  - intros k ks Hk Hg. cbv zeta. unfold send_jobs_to_user_with, py_bind, get_users. simpl.
    rewrite Hd, Ha, Hr, Hk. simpl.
    unfold scrape_jobs, source_block, keywords_str, py_index, py_try, py_bind, py_lift,
      emit, send_message, py_ret. simpl.
    set (kw := join "+" (split_ws (replace k "," " "))).
    destruct (Hg (linkedin_url (search_location d) kw)) as [e1 He1].
    destruct (Hg (indeed_url (search_location d) kw)) as [e2 He2].
    rewrite He1. simpl. rewrite He2. simpl. unfold emit. simpl.
    by rewrite <- !app_assoc.
Qed.

Lemma job_run_without_postings_witness :
  send_jobs_to_user (fun _ => Raise RequestException) demo_hash 42 demo_world =
  (mkWorld (st demo_world)
     [ESleepRandom;
      EHttpGet (linkedin_url "India" "ML+Engineer");
      EHttpGet (indeed_url "India" "ML+Engineer");
      ESend 42 no_new_jobs_msg None], Ret tt).
Proof.
  exact (proj2 (job_run_without_postings get_match_score (fun _ => Raise RequestException)
           demo_hash 42 demo_world demo_user eq_refl eq_refl ltac:(discriminate))
           "ML Engineer" [] eq_refl (fun url => ex_intro _ RequestException eq_refl)).
Defined.
